(** * Steel tube weight calculator: the calculation engine of calculator-pipe

    The repository holds three successive versions of [src/app/page.tsx]:

    - generation 1 ([PageV1]): round tube in inches with the constants
      10.69 and 24.66, square tube in millimetres with the 7.85 shortcut;
    - generation 2 ([PageV2]): geometry and density ([areaRoundMm2],
      [areaSquareTubeMm2], [kgPerUnitFromArea]);
    - generation 3 ([PageV3], the unnamed source file): one unit selector,
      three shapes, the 0.02466 shortcut for the round tube.

    Every function is written once, over the interface [JsNumber] of the
    JavaScript number type, and read at two instances: [Float64.t], IEEE 754
    binary64 as the Standard Library specifies it (what the program runs
    on), and [Exact.t], the reals extended with NaN and the infinities
    (arithmetic without rounding).

    The pages around the engine are modelled as well: the text a number is
    shown as ([fmt], on binary64), the form state with its handlers and the
    effect on [pipeType] ([FormV1], [FormV2], [FormV3]), and the texts of
    the result card. *)

From Stdlib Require Import ZArith NArith Bool List String Ascii.
From Stdlib Require Import Reals Lra Psatz Machin.
From Stdlib Require Import Floats.SpecFloat.
Import ListNotations.

Set Implicit Arguments.

(** ** The JavaScript number type, as an interface *)

Declare Scope js_scope.
Delimit Scope js_scope with js.

Class JsNumber (number : Type) : Type := {
  (** the value NaN *)
  NaN : number;
  (** plus or minus Infinity *)
  infinity : bool -> number;
  (** the number denoted by the decimal numeral [(-1)^s * m * 10^e] *)
  decimal : bool -> N -> Z -> number;
  add : number -> number -> number;
  sub : number -> number -> number;
  mul : number -> number -> number;
  div : number -> number -> number;
  (** the comparisons [<] and [<=]; both are false when an operand is NaN *)
  lt : number -> number -> bool;
  le : number -> number -> bool;
  (** [Number.isFinite] *)
  isFinite : number -> bool;
  (** [Math.PI] *)
  Math_PI : number
}.

Infix "+" := add : js_scope.
Infix "-" := sub : js_scope.
Infix "*" := mul : js_scope.
Infix "/" := div : js_scope.
Notation "x <? y" := (lt x y) : js_scope.
Notation "x <=? y" := (le x y) : js_scope.
Notation "x >? y" := (lt y x) : js_scope.
Notation "x >=? y" := (le y x) : js_scope.

(** What the engine relies on when a NaN reaches it. *)
Class JsNumberLaws (number : Type) `{JsNumber number} : Prop := {
  isFinite_NaN : isFinite NaN = false;
  lt_NaN_l : forall x, lt NaN x = false;
  lt_NaN_r : forall x, lt x NaN = false;
  le_NaN_l : forall x, le NaN x = false;
  le_NaN_r : forall x, le x NaN = false;
  mul_NaN_l : forall x, mul NaN x = NaN;
  lt_irrefl : forall x, lt x x = false;
  lt_le : forall x y, lt x y = true -> le x y = true
}.

(** ** [Number(v)]: the conversion of a string to a number

    ECMA-262, StringToNumber: white space is trimmed, the empty string is
    [+0], a decimal literal with an optional sign, fraction and exponent, the
    word [Infinity] with an optional sign, or an unsigned hexadecimal, octal
    or binary integer literal; anything else is NaN.  Only the ASCII white
    space characters are recognised here. *)

Module StringToNumber.

Inductive literal : Type :=
| LitNaN
| LitInfinity (neg : bool)
| LitDecimal (neg : bool) (m : N) (e : Z).

Definition isWhiteSpace (c : ascii) : bool :=
  let k := nat_of_ascii c in
  (Nat.eqb k 32 || (Nat.leb 9 k && Nat.leb k 13))%bool.

Fixpoint trimStart (s : list ascii) : list ascii :=
  match s with
  | c :: r => if isWhiteSpace c then trimStart r else s
  | [] => []
  end.

Definition trim (s : list ascii) : list ascii :=
  rev (trimStart (rev (trimStart s))).

(** the value of a digit in a radix, if it is one *)
Definition digitValue (radix : N) (c : ascii) : option N :=
  let k := N_of_ascii c in
  let v :=
    if (48 <=? k)%N && (k <=? 57)%N then Some (k - 48)%N
    else if (97 <=? k)%N && (k <=? 122)%N then Some (k - 87)%N
    else if (65 <=? k)%N && (k <=? 90)%N then Some (k - 55)%N
    else None in
  match v with
  | Some d => if (d <? radix)%N then Some d else None
  | None => None
  end.

(** [digits radix acc cnt s]: the longest prefix of digits of [s], folded
    into [acc]; returns the value, the number of digits read and the rest *)
Fixpoint digits (radix acc : N) (cnt : nat) (s : list ascii)
  : N * nat * list ascii :=
  match s with
  | c :: r =>
      match digitValue radix c with
      | Some d => digits radix (acc * radix + d)%N (S cnt) r
      | None => (acc, cnt, s)
      end
  | [] => (acc, cnt, [])
  end.

Definition isChar (c : ascii) (a b : string) : bool :=
  (String.eqb (String c EmptyString) a || String.eqb (String c EmptyString) b)%bool.

(** an unsigned integer literal in radix 16, 8 or 2, after its prefix *)
Definition nonDecimal (radix : N) (s : list ascii) : literal :=
  match digits radix 0 0 s with
  | (v, S _, []) => LitDecimal false v 0
  | _ => LitNaN
  end.

(** the optional exponent part, then the end of the string *)
Definition exponentPart (s : list ascii) : option Z :=
  match s with
  | [] => Some 0%Z
  | c :: r =>
      if isChar c "e" "E" then
        let '(neg, r') :=
          match r with
          | sg :: r' =>
              if isChar sg "-" "-" then (true, r')
              else if isChar sg "+" "+" then (false, r')
              else (false, r)
          | [] => (false, r)
          end in
        match digits 10 0 0 r' with
        | (v, S _, []) => Some (if neg then (- Z.of_N v)%Z else Z.of_N v)
        | _ => None
        end
      else None
  end.

(** an unsigned decimal literal: digits, fraction, exponent *)
Definition unsignedDecimal (neg : bool) (s : list ascii) : literal :=
  let '(ip, ni, r1) := digits 10 0 0 s in
  let '(m, nf, r2) :=
    match r1 with
    | c :: r =>
        if isChar c "." "." then
          let '(m, nf, r2) := digits 10 ip 0 r in (m, nf, r2)
        else (ip, 0, r1)
    | [] => (ip, 0, r1)
    end in
  match (ni + nf)%nat with
  | O => LitNaN
  | S _ =>
      match exponentPart r2 with
      | Some e => LitDecimal neg m (e - Z.of_nat nf)
      | None => LitNaN
      end
  end.

Definition strDecimal (neg : bool) (s : list ascii) : literal :=
  if list_eq_dec ascii_dec s (list_ascii_of_string "Infinity")
  then LitInfinity neg
  else unsignedDecimal neg s.

Definition parse (v : string) : literal :=
  match trim (list_ascii_of_string v) with
  | [] => LitDecimal false 0 0
  | c :: r =>
      if isChar c "-" "-" then strDecimal true r
      else if isChar c "+" "+" then strDecimal false r
      else
        match r with
        | x :: r' =>
            if isChar c "0" "0" && isChar x "x" "X" then nonDecimal 16 r'
            else if isChar c "0" "0" && isChar x "o" "O" then nonDecimal 8 r'
            else if isChar c "0" "0" && isChar x "b" "B" then nonDecimal 2 r'
            else strDecimal false (c :: r)
        | [] => strDecimal false (c :: r)
        end
  end.

End StringToNumber.

Section Number.
Context {number : Type} `{JsNumber number}.

Definition Number (v : string) : number :=
  match StringToNumber.parse v with
  | StringToNumber.LitNaN => NaN
  | StringToNumber.LitInfinity neg => infinity neg
  | StringToNumber.LitDecimal neg m e => decimal neg m e
  end.
End Number.

(** ** IEEE 754 binary64 *)

Module Float64.

Definition prec : Z := 53.
Definition emax : Z := 1024.

Definition t : Type := spec_float.

(** the correctly rounded quotient of two positive integers *)
Definition roundQuotient (neg : bool) (a b : positive) : t :=
  SFdiv prec emax (S754_finite neg a 0) (S754_finite false b 0).

Definition ofDecimal (neg : bool) (m : N) (e : Z) : t :=
  match m with
  | N0 => S754_zero neg
  | Npos p =>
      match e with
      | Zneg k => roundQuotient neg p (Pos.pow 10 k)
      | _ => binary_round prec emax neg (p * Z.to_pos (10 ^ e)) 0
      end
  end.

Definition finite (x : t) : bool :=
  match x with
  | S754_zero _ | S754_finite _ _ _ => true
  | S754_infinity _ | S754_nan => false
  end.

(** a number that is zero, negative or NaN: nothing positive *)
Definition notPositive (x : t) : Prop :=
  match x with
  | S754_zero _ | S754_nan => True
  | S754_infinity s | S754_finite s _ _ => s = true
  end.

(** a number that is zero, positive or NaN: nothing negative *)
Definition notNegative (x : t) : Prop :=
  match x with
  | S754_zero _ | S754_nan => True
  | S754_infinity s | S754_finite s _ _ => s = false
  end.

(** [Math.PI] is the binary64 number nearest to pi *)
Definition PI : t := S754_finite false 7074237752028440 (-51).

Definition number : JsNumber t := {|
  NaN := S754_nan;
  infinity := S754_infinity;
  decimal := ofDecimal;
  add := SFadd prec emax;
  sub := SFsub prec emax;
  mul := SFmul prec emax;
  div := SFdiv prec emax;
  lt := SFltb;
  le := SFleb;
  isFinite := finite;
  Math_PI := PI
|}.

End Float64.

(** ** Exact arithmetic: the reals with NaN and the two infinities *)

Module Exact.

Inductive t : Type :=
| XNaN
| XInf (neg : bool)
| XR (r : R).

Definition Rltb (a b : R) : bool := if Rlt_dec a b then true else false.
Definition Rleb (a b : R) : bool := if Rle_dec a b then true else false.
Definition Reqb (a b : R) : bool := if Req_dec_T a b then true else false.

Definition ofDecimal (neg : bool) (m : N) (e : Z) : t :=
  let a := if neg then (- Z.of_N m)%Z else Z.of_N m in
  match e with
  | Zneg k => XR (IZR a / IZR (Zpos (Pos.pow 10 k)))
  | _ => XR (IZR (a * 10 ^ e))
  end.

Definition xadd (x y : t) : t :=
  match x, y with
  | XNaN, _ | _, XNaN => XNaN
  | XInf a, XInf b => if Bool.eqb a b then x else XNaN
  | XInf _, XR _ => x
  | XR _, XInf _ => y
  | XR a, XR b => XR (a + b)
  end.

Definition xsub (x y : t) : t :=
  match x, y with
  | XNaN, _ | _, XNaN => XNaN
  | XInf a, XInf b => if Bool.eqb a b then XNaN else x
  | XInf _, XR _ => x
  | XR _, XInf b => XInf (negb b)
  | XR a, XR b => XR (a - b)
  end.

Definition xmul (x y : t) : t :=
  match x, y with
  | XNaN, _ | _, XNaN => XNaN
  | XInf a, XInf b => XInf (xorb a b)
  | XInf a, XR r | XR r, XInf a =>
      if Reqb r 0 then XNaN else XInf (xorb a (Rltb r 0))
  | XR a, XR b => XR (a * b)
  end.

Definition xdiv (x y : t) : t :=
  match x, y with
  | XNaN, _ | _, XNaN => XNaN
  | XInf _, XInf _ => XNaN
  | XInf a, XR r => XInf (xorb a (Rltb r 0))
  | XR _, XInf _ => XR 0
  | XR a, XR b =>
      if Reqb b 0 then (if Reqb a 0 then XNaN else XInf (Rltb a 0))
      else XR (a / b)
  end.

Definition xlt (x y : t) : bool :=
  match x, y with
  | XNaN, _ | _, XNaN => false
  | XInf a, XInf b => a && negb b
  | XInf a, XR _ => a
  | XR _, XInf b => negb b
  | XR a, XR b => Rltb a b
  end.

Definition xle (x y : t) : bool :=
  match x, y with
  | XNaN, _ | _, XNaN => false
  | XInf a, XInf b => a || negb b
  | XInf a, XR _ => a
  | XR _, XInf b => negb b
  | XR a, XR b => Rleb a b
  end.

Definition finite (x : t) : bool :=
  match x with
  | XR _ => true
  | _ => false
  end.

(** millimetres in one foot and in one metre of run *)
Definition runLengthMm (foot : bool) : R :=
  if foot then 3048 / 10 else 1000.

Definition number : JsNumber t := {|
  NaN := XNaN;
  infinity := XInf;
  decimal := ofDecimal;
  add := xadd;
  sub := xsub;
  mul := xmul;
  div := xdiv;
  lt := xlt;
  le := xle;
  isFinite := finite;
  Math_PI := XR PI
|}.

End Exact.

Section Literals.
Context {number : Type} `{JsNumber number}.

(** a numeric literal of the source: [lit m e] is [m * 10^e] *)
Definition lit (m : N) (e : Z) : number := decimal false m e.
End Literals.

(** ** The specification's engine, in its own words

    Sections 4.1 to 4.4 of the specification: the canonical geometry and
    density method the three generations are compared with. *)

Module Spec.

Inductive RunUnit : Type := foot | meter.

Section Engine.
Context {number : Type} `{JsNumber number}.
Local Open Scope js_scope.

(** a profile whose dimensions are already in millimetres *)
Inductive Profile : Type :=
| Round (outerDiameter thickness : number)
| Square (outerSide thickness : number)
| Rectangle (outerWidth outerHeight thickness : number).


Definition toMillimeters (inch : bool) (value : number) : number :=
  if inch then value * lit 254 (-1) else value.

Definition isFoot (u : RunUnit) : bool :=
  match u with foot => true | meter => false end.

Definition lengthFactorMm (u : RunUnit) : number :=
  match u with foot => lit 3048 (-1) | meter => lit 1000 0 end.

Definition density_kg_per_mm3 : number := lit 785 (-8).

Definition valid (p : Profile) : bool :=
  match p with
  | Round OD T => (T >? lit 0 0) && (OD >? lit 2 0 * T)
  | Square side T => (T >? lit 0 0) && (side >? lit 2 0 * T)
  | Rectangle W H T =>
      (T >? lit 0 0) && (W >? lit 2 0 * T) && (H >? lit 2 0 * T)
  end.

Definition area (p : Profile) : number :=
  match p with
  | Round OD T =>
      let ID := OD - lit 2 0 * T in
      (Math_PI / lit 4 0) * (OD * OD - ID * ID)
  | Square side T =>
      side * side - (side - lit 2 0 * T) * (side - lit 2 0 * T)
  | Rectangle W H T =>
      W * H - (W - lit 2 0 * T) * (H - lit 2 0 * T)
  end.

Definition weightPerRunUnit (areaMm2 : number) (u : RunUnit) : number :=
  areaMm2 * lengthFactorMm u * density_kg_per_mm3.

Definition totalWeight (w runLength : number) : number :=
  if isFinite runLength && (runLength >? lit 0 0) then w * runLength
  else NaN.

(** the second profile is the first with one outer dimension strictly
    increased, at the same thickness *)
Inductive grows : Profile -> Profile -> Prop :=
| grows_diameter OD OD' T :
    (OD <? OD') = true -> grows (Round OD T) (Round OD' T)
| grows_side side side' T :
    (side <? side') = true -> grows (Square side T) (Square side' T)
| grows_width W W' H' T :
    (W <? W') = true -> grows (Rectangle W H' T) (Rectangle W' H' T)
| grows_height W H' H'' T :
    (H' <? H'') = true -> grows (Rectangle W H' T) (Rectangle W H'' T).
End Engine.

End Spec.

(** distance of [a] from [b] relative to a positive [b], in the program's
    own arithmetic *)
Section Distance.
Context {number : Type} `{JsNumber number}.
Local Open Scope js_scope.

Definition absDiff (a b : number) : number :=
  if a <? b then b - a else a - b.


(** [a] and [b] differ by at most the fraction [tol] of [b] *)
Definition within (tol a b : number) : bool :=
  absDiff a b <=? tol * b.
End Distance.

(** ** Generation 1 of [src/app/page.tsx] *)

Module PageV1.

Inductive PipeType : Type := Round | Square.
Inductive RoundLenUnit : Type := ft | m.

Section Engine.
Context {number : Type} `{JsNumber number}.
Local Open Scope js_scope.

Record Result : Type := {
  ok : bool;
  unitLabel : string;
  wPerUnit : number;
  total : number;
  note : string
}.

Definition num (v : string) : number :=
  let n := Number v in
  if isFinite n then n else NaN.

Definition clampNonNegative (n : number) : number :=
  if isFinite n && (n >=? lit 0 0) then n else NaN.

Definition roundLabel (roundLenUnit : RoundLenUnit) : string :=
  match roundLenUnit with ft => "kg/ft" | m => "kg/m" end.

Definition round (odIn thIn roundLen : string)
           (roundLenUnit : RoundLenUnit) : Result :=
  let od := clampNonNegative (num odIn) in
  let t := clampNonNegative (num thIn) in
  let L := clampNonNegative (num roundLen) in
  let validDims :=
    isFinite od && isFinite t && (t >? lit 0 0) && (od >? t) in
  if negb validDims then
    {| ok := false;
       unitLabel := roundLabel roundLenUnit;
       wPerUnit := NaN;
       total := NaN;
       note := "Enter OD and Thickness in inches. OD must be greater than Thickness." |}
  else
    let wPerUnit :=
      match roundLenUnit with
      | ft => lit 1069 (-2) * (od - t) * t
      | m => lit 2466 (-2) * (od - t) * t
      end in
    let hasLen := isFinite L && (L >? lit 0 0) in
    let total := if hasLen then wPerUnit * L else NaN in
    {| ok := true;
       unitLabel := roundLabel roundLenUnit;
       wPerUnit := wPerUnit;
       total := total;
       note := "Approx. steel weight based on a common industry formula." |}.

Definition square (sideMm thMm sqLenM : string) : Result :=
  let S := clampNonNegative (num sideMm) in
  let t := clampNonNegative (num thMm) in
  let L := clampNonNegative (num sqLenM) in
  let validDims :=
    isFinite S && isFinite t && (t >? lit 0 0) && (S >? t) in
  if negb validDims then
    {| ok := false;
       unitLabel := "kg/m";
       wPerUnit := NaN;
       total := NaN;
       note := "Enter Side and Thickness in mm. Side must be greater than Thickness." |}
  else
    let wPerUnit := (lit 4 0 * t * (S - t) * lit 785 (-2)) / lit 1000 0 in
    let hasLen := isFinite L && (L >? lit 0 0) in
    let total := if hasLen then wPerUnit * L else NaN in
    {| ok := true;
       unitLabel := "kg/m";
       wPerUnit := wPerUnit;
       total := total;
       note := "Approx. steel weight (7.85 density factor)." |}.

(** the form state the two memoised results are computed from *)
Record State : Type := {
  pipeType : PipeType;
  odIn : string;
  thIn : string;
  roundLen : string;
  roundLenUnit : RoundLenUnit;
  sideMm : string;
  thMm : string;
  sqLenM : string
}.

Definition active (st : State) : Result :=
  match pipeType st with
  | Round => round (odIn st) (thIn st) (roundLen st) (roundLenUnit st)
  | Square => square (sideMm st) (thMm st) (sqLenM st)
  end.

(** the value a text field contributes to the computation *)
Definition field (v : string) : number := clampNonNegative (num v).

(** the check both shapes apply: finite, positive thickness, and an
    outer dimension greater than the thickness *)
Definition validDims (outer t : number) : bool :=
  isFinite outer && isFinite t && (t >? lit 0 0) && (outer >? t).
End Engine.

End PageV1.

(** ** Generation 2 of [src/app/page.tsx]: geometry and density *)

Module PageV2.

Inductive PipeType : Type := Round | Square.
Inductive LenUnit : Type := ft | m.

Section Engine.
Context {number : Type} `{JsNumber number}.
Local Open Scope js_scope.

Record Result : Type := {
  ok : bool;
  unitLabel : string;
  wPerUnit : number;
  total : number;
  note : string
}.

Definition num (v : string) : number :=
  let n := Number v in
  if isFinite n then n else NaN.

Definition clampNonNegative (n : number) : number :=
  if isFinite n && (n >=? lit 0 0) then n else NaN.

Definition IN_TO_MM : number := lit 254 (-1).
Definition FT_TO_MM : number := lit 3048 (-1).
Definition M_TO_MM : number := lit 1000 0.
Definition STEEL_DENSITY_KG_PER_MM3 : number := lit 785 (-8).

Definition inchesToMm (xIn : number) : number := xIn * IN_TO_MM.

Definition areaRoundMm2 (odMm tMm : number) : number :=
  let idMm := odMm - lit 2 0 * tMm in
  if negb (idMm >? lit 0 0) then NaN
  else (Math_PI / lit 4 0) * (odMm * odMm - idMm * idMm).

Definition areaSquareTubeMm2 (sideMm tMm : number) : number :=
  let inner := sideMm - lit 2 0 * tMm in
  if negb (inner >? lit 0 0) then NaN
  else sideMm * sideMm - inner * inner.

Definition kgPerUnitFromArea (areaMm2 : number) (unit : LenUnit) : number :=
  let lenMm := match unit with ft => FT_TO_MM | m => M_TO_MM end in
  let volMm3 := areaMm2 * lenMm in
  volMm3 * STEEL_DENSITY_KG_PER_MM3.

Definition label (unit : LenUnit) : string :=
  match unit with ft => "kg/ft" | m => "kg/m" end.

Definition round (odIn thMmRound roundLen : string)
           (roundLenUnit : LenUnit) : Result :=
  let odInVal := clampNonNegative (num odIn) in
  let tMm := clampNonNegative (num thMmRound) in
  let L := clampNonNegative (num roundLen) in
  let odMm := if isFinite odInVal then inchesToMm odInVal else NaN in
  let validDims :=
    isFinite odMm && isFinite tMm && (tMm >? lit 0 0)
    && (odMm >? lit 2 0 * tMm) in
  if negb validDims then
    {| ok := false;
       unitLabel := label roundLenUnit;
       wPerUnit := NaN;
       total := NaN;
       note := "Round: OD must be in inches, Thickness in mm, and OD > 2×Thickness." |}
  else
    let area := areaRoundMm2 odMm tMm in
    let wPerUnit := kgPerUnitFromArea area roundLenUnit in
    let hasLen := isFinite L && (L >? lit 0 0) in
    let total := if hasLen then wPerUnit * L else NaN in
    {| ok := true;
       unitLabel := label roundLenUnit;
       wPerUnit := wPerUnit;
       total := total;
       note := "Calculated using geometry + steel density (7850 kg/m³)." |}.

Definition square (sideIn thMmSq sqLen : string)
           (sqLenUnit : LenUnit) : Result :=
  let sideInVal := clampNonNegative (num sideIn) in
  let tMm := clampNonNegative (num thMmSq) in
  let L := clampNonNegative (num sqLen) in
  let sideMm := if isFinite sideInVal then inchesToMm sideInVal else NaN in
  let validDims :=
    isFinite sideMm && isFinite tMm && (tMm >? lit 0 0)
    && (sideMm >? lit 2 0 * tMm) in
  if negb validDims then
    {| ok := false;
       unitLabel := label sqLenUnit;
       wPerUnit := NaN;
       total := NaN;
       note := "Square: Side must be in inches, Thickness in mm, and Side > 2×Thickness." |}
  else
    let area := areaSquareTubeMm2 sideMm tMm in
    let wPerUnit := kgPerUnitFromArea area sqLenUnit in
    let hasLen := isFinite L && (L >? lit 0 0) in
    let total := if hasLen then wPerUnit * L else NaN in
    {| ok := true;
       unitLabel := label sqLenUnit;
       wPerUnit := wPerUnit;
       total := total;
       note := "Calculated using geometry + steel density (7850 kg/m³)." |}.

Record State : Type := {
  pipeType : PipeType;
  odIn : string;
  thMmRound : string;
  roundLen : string;
  roundLenUnit : LenUnit;
  sideIn : string;
  thMmSq : string;
  sqLen : string;
  sqLenUnit : LenUnit
}.

Definition active (st : State) : Result :=
  match pipeType st with
  | Round => round (odIn st) (thMmRound st) (roundLen st) (roundLenUnit st)
  | Square => square (sideIn st) (thMmSq st) (sqLen st) (sqLenUnit st)
  end.

(** the value a text field contributes to the computation *)
Definition field (v : string) : number := clampNonNegative (num v).

(** an outer dimension entered in inches, in millimetres *)
Definition outerMm (v : string) : number :=
  if isFinite (field v) then inchesToMm (field v) else NaN.

Definition runUnit (u : LenUnit) : Spec.RunUnit :=
  match u with ft => Spec.foot | m => Spec.meter end.

(** the profiles the two forms describe, in millimetres *)
Definition roundProfile (odIn thMmRound : string) : Spec.Profile :=
  Spec.Round (outerMm odIn) (field thMmRound).

Definition squareProfile (sideIn thMmSq : string) : Spec.Profile :=
  Spec.Square (outerMm sideIn) (field thMmSq).
End Engine.

End PageV2.

(** ** Generation 3: the page with one unit selector and three shapes *)

Module PageV3.

Inductive PipeType : Type := round | square | rectangle.
Inductive Unit : Type := mm_ | in_.

Definition PipeType_eqb (a b : PipeType) : bool :=
  match a, b with
  | round, round | square, square | rectangle, rectangle => true
  | _, _ => false
  end.

(** A block of the body of [result] either returns from the function or
    falls through to the next statement with the current [wPerM]. *)
Inductive Flow (R A : Type) : Type :=
| Return (r : R)
| Next (a : A).
Arguments Return {R A} r.
Arguments Next {R A} a.

Definition andThen {R A} (c : Flow R A) (k : A -> R) : R :=
  match c with
  | Return r => r
  | Next a => k a
  end.

Notation "x <- c ;; k" := (andThen c (fun x => k))
  (at level 61, c at next level, right associativity).

Section Engine.
Context {number : Type} `{JsNumber number}.
Local Open Scope js_scope.

Record Result : Type := {
  ok : bool;
  wPerM : number;
  total : number
}.

Definition IN_TO_MM : number := lit 254 (-1).

Definition n (v : string) : number :=
  let x := Number v in
  if isFinite x then x else NaN.

Definition mm (unit : Unit) (v : number) : number :=
  match unit with in_ => v * IN_TO_MM | mm_ => v end.

Definition invalid : Result :=
  {| ok := false; wPerM := NaN; total := NaN |}.

Definition result (pipeType : PipeType) (unit : Unit)
           (od side width height thickness length : string) : Result :=
  let T := mm unit (n thickness) in
  let L := n length in
  if negb (T >? lit 0 0) then invalid else
  let wPerM := NaN in
  (* ROUND PIPE *)
  wPerM <-
    (if PipeType_eqb pipeType round then
       let OD := mm unit (n od) in
       if negb (OD >? lit 2 0 * T) then Return invalid
       else Next (lit 2466 (-5) * (OD - T) * T)
     else Next wPerM) ;;
  (* SQUARE PIPE *)
  wPerM <-
    (if PipeType_eqb pipeType square then
       let S := mm unit (n side) in
       if negb (S >? lit 2 0 * T) then Return invalid
       else Next ((lit 4 0 * T * (S - T) * lit 785 (-2)) / lit 1000 0)
     else Next wPerM) ;;
  (* RECTANGLE PIPE *)
  wPerM <-
    (if PipeType_eqb pipeType rectangle then
       let W := mm unit (n width) in
       let H := mm unit (n height) in
       if negb ((W >? lit 2 0 * T) && (H >? lit 2 0 * T)) then Return invalid
       else Next ((lit 2 0 * T * ((W + H) - lit 2 0 * T) * lit 785 (-2))
                  / lit 1000 0)
     else Next wPerM) ;;
  let total := if isFinite L && (L >? lit 0 0) then wPerM * L else NaN in
  {| ok := true; wPerM := wPerM; total := total |}.

(** the active profile, in millimetres *)
Definition profile (pipeType : PipeType) (unit : Unit)
           (od side width height thickness : string) : Spec.Profile :=
  let T := mm unit (n thickness) in
  match pipeType with
  | round => Spec.Round (mm unit (n od)) T
  | square => Spec.Square (mm unit (n side)) T
  | rectangle => Spec.Rectangle (mm unit (n width)) (mm unit (n height)) T
  end.

(** the text fields the active profile is read from *)
Definition fields (pipeType : PipeType)
           (od side width height thickness : string) : list string :=
  thickness ::
  match pipeType with
  | round => [od]
  | square => [side]
  | rectangle => [width; height]
  end.

(** the weight per metre the three shortcut formulas give *)
Definition shortcut (p : Spec.Profile) : number :=
  match p with
  | Spec.Round OD T => lit 2466 (-5) * (OD - T) * T
  | Spec.Square side T =>
      (lit 4 0 * T * (side - T) * lit 785 (-2)) / lit 1000 0
  | Spec.Rectangle W H T =>
      (lit 2 0 * T * ((W + H) - lit 2 0 * T) * lit 785 (-2)) / lit 1000 0
  end.
End Engine.

End PageV3.

(** ** [fmt]: the text a number is shown as

    [Number.prototype.toFixed] (ECMA-262) on binary64: the sign, then the
    integer [n] for which [n / 10^f] is nearest to the magnitude, the larger
    one of two, with a point before its last [f] digits; a magnitude from
    10^21 on is written by [Number::toString] instead, which at that size is
    the exponential form of the shortest decimal that reads back as the
    number, the nearest such decimal where several have that length. *)

Module NumberToString.

Definition digitChar (d : N) : ascii := ascii_of_N (48 + d).

(** the decimal digits of [n] before [acc], the most significant first;
    [fuel] bounds their number *)
Fixpoint decimalDigitsFrom (fuel : nat) (n : N) (acc : list ascii)
  : list ascii :=
  match fuel with
  | O => acc
  | S fuel' =>
      let acc' := digitChar (n mod 10) :: acc in
      if (n / 10 =? 0)%N then acc' else decimalDigitsFrom fuel' (n / 10) acc'
  end.

Definition decimalDigits (n : N) : list ascii :=
  decimalDigitsFrom (S (N.size_nat n)) n [].

(** the integer nearest to [m * 2^e * 10^f], the larger one of two *)
Definition scaledRound (f : nat) (m : positive) (e : Z) : N :=
  let scaled := (Npos m * 10 ^ N.of_nat f)%N in
  match e with
  | Zneg k => ((2 * scaled + 2 ^ Npos k) / 2 ^ (Npos k + 1))%N
  | _ => (scaled * 2 ^ Z.to_N e)%N
  end.

(** [n] with a point before its last [f] digits, padded with zeros to at
    least one digit before the point *)
Definition fixedDigits (f : nat) (n : N) : list ascii :=
  let m := decimalDigits n in
  match f with
  | O => m
  | S _ =>
      let k := List.length m in
      let m := if Nat.leb k f then repeat "0"%char (f + 1 - k) ++ m else m in
      let k := List.length m in
      firstn (k - f) m ++ "."%char :: skipn (k - f) m
  end.

(** whether [m * 2^e] is at least 10^21 *)
Definition atLeast1e21 (m : positive) (e : Z) : bool :=
  match e with
  | Zneg k => (10 ^ 21 * 2 ^ Npos k <=? Npos m)%N
  | _ => (10 ^ 21 <=? Npos m * 2 ^ Z.to_N e)%N
  end.

(** the decimals [c * 10^p] with [k] digits next to [v], if they read back
    as [x]: the digits [s] and the position [n] of the point *)
Definition candidates (x : Float64.t) (v : N) (n k : nat)
  : option (N * nat) :=
  let p := N.of_nat (n - k) in
  let lo := (v / 10 ^ p)%N in
  let hi := (lo + 1)%N in
  let reads c := SFeqb (Float64.ofDecimal false c (Z.of_N p)) x in
  let up := if (hi =? 10 ^ N.of_nat k)%N then (1%N, S n) else (hi, n) in
  match reads lo, reads hi with
  | true, true =>
      let below := (v - lo * 10 ^ p)%N in
      let above := (hi * 10 ^ p - v)%N in
      if (below <? above)%N then Some (lo, n)
      else if (above <? below)%N then Some up
      else if N.even lo then Some (lo, n) else Some up
  | true, false => Some (lo, n)
  | false, true => Some up
  | false, false => None
  end.

(** the least number of digits, from [k] on, that reads back as [x] *)
Fixpoint shortest (fuel : nat) (x : Float64.t) (v : N) (n k : nat)
  : N * nat :=
  match fuel with
  | O => (v, n)
  | S fuel' =>
      match candidates x v n k with
      | Some r => r
      | None => shortest fuel' x v n (S k)
      end
  end.

(** [Number::toString] of [m * 2^e] when it is at least 10^21 *)
Definition toStringLarge (m : positive) (e : Z) : list ascii :=
  let v := (Npos m * 2 ^ Z.to_N e)%N in
  let n := List.length (decimalDigits v) in
  let '(s, n) := shortest n (S754_finite false m e) v n 1 in
  let exponent := "e"%char :: "+"%char :: decimalDigits (N.of_nat (n - 1)) in
  match decimalDigits s with
  | d :: (_ :: _) as r => d :: "."%char :: r ++ exponent
  | ds => ds ++ exponent
  end.

Definition toFixed (f : nat) (x : Float64.t) : string :=
  match x with
  | S754_nan => "NaN"
  | S754_infinity s => if s then "-Infinity" else "Infinity"
  | S754_zero _ => string_of_list_ascii (fixedDigits f 0)
  | S754_finite s m e =>
      string_of_list_ascii
        ((if s then ["-"%char] else []) ++
         (if atLeast1e21 m e then toStringLarge m e
          else fixedDigits f (scaledRound f m e)))
  end.

(** the real number a binary64 number stands for *)
Definition realValue (x : Float64.t) : R :=
  match x with
  | S754_finite s m e =>
      let v := (IZR (Zpos m) * powerRZ 2 e)%R in
      if s then (- v)%R else v
  | _ => 0%R
  end.

Definition isDecimalDigit (c : ascii) : bool :=
  ((48 <=? N_of_ascii c) && (N_of_ascii c <=? 57))%N.

(** the number a list of decimal digits stands for, after [acc] *)
Definition digitsValue (acc : N) (s : list ascii) : N :=
  fold_left (fun a c => (a * 10 + (N_of_ascii c - 48))%N) s acc.

(** the characters of a number written in digits: a digit, the sign, the
    point, and the [e+] of the exponential form *)
Definition numericChar (c : ascii) : bool :=
  isDecimalDigit c ||
  existsb (Ascii.eqb c) ["-"%char; "."%char; "e"%char; "+"%char].

End NumberToString.

(** ** The forms: state, handlers and the result card

    A page keeps its fields in [useState] cells.  An event handler calls
    some of their setters, one after the other; in generations 1 and 2 the
    effect that depends on [pipeType] runs after a render in which
    [pipeType] has changed, before the next event is handled. *)

(** the setters a handler calls, in the order of the source *)
Definition calls {State : Type} (setters : list (State -> State))
           (st : State) : State :=
  fold_left (fun s set => set s) setters st.

(** [fmt] of [src/app/page.tsx], the same in both generations *)
Definition fmt (n : Float64.t) : string :=
  if negb (Float64.finite n) then "—" else NumberToString.toFixed 2 n.

(** the texts of the result card of [src/app/page.tsx] *)
Record Card : Type := {
  weightLabel : string;
  weightValue : string;
  totalValue : string;
  noteText : string;
  tipShown : bool
}.

Module FormV1.
Import PageV1.

(** the [useState] defaults *)
Definition initial : State :=
  {| pipeType := Round; odIn := ""; thIn := ""; roundLen := "";
     roundLenUnit := ft; sideMm := ""; thMm := ""; sqLenM := "" |}.

Definition setPipeType (p : PipeType) (st : State) : State :=
  {| pipeType := p; odIn := odIn st; thIn := thIn st;
     roundLen := roundLen st; roundLenUnit := roundLenUnit st;
     sideMm := sideMm st; thMm := thMm st; sqLenM := sqLenM st |}.

Definition setOdIn (v : string) (st : State) : State :=
  {| pipeType := pipeType st; odIn := v; thIn := thIn st;
     roundLen := roundLen st; roundLenUnit := roundLenUnit st;
     sideMm := sideMm st; thMm := thMm st; sqLenM := sqLenM st |}.

Definition setThIn (v : string) (st : State) : State :=
  {| pipeType := pipeType st; odIn := odIn st; thIn := v;
     roundLen := roundLen st; roundLenUnit := roundLenUnit st;
     sideMm := sideMm st; thMm := thMm st; sqLenM := sqLenM st |}.

Definition setRoundLen (v : string) (st : State) : State :=
  {| pipeType := pipeType st; odIn := odIn st; thIn := thIn st;
     roundLen := v; roundLenUnit := roundLenUnit st;
     sideMm := sideMm st; thMm := thMm st; sqLenM := sqLenM st |}.

Definition setRoundLenUnit (u : RoundLenUnit) (st : State) : State :=
  {| pipeType := pipeType st; odIn := odIn st; thIn := thIn st;
     roundLen := roundLen st; roundLenUnit := u;
     sideMm := sideMm st; thMm := thMm st; sqLenM := sqLenM st |}.

Definition setSideMm (v : string) (st : State) : State :=
  {| pipeType := pipeType st; odIn := odIn st; thIn := thIn st;
     roundLen := roundLen st; roundLenUnit := roundLenUnit st;
     sideMm := v; thMm := thMm st; sqLenM := sqLenM st |}.

Definition setThMm (v : string) (st : State) : State :=
  {| pipeType := pipeType st; odIn := odIn st; thIn := thIn st;
     roundLen := roundLen st; roundLenUnit := roundLenUnit st;
     sideMm := sideMm st; thMm := v; sqLenM := sqLenM st |}.

Definition setSqLenM (v : string) (st : State) : State :=
  {| pipeType := pipeType st; odIn := odIn st; thIn := thIn st;
     roundLen := roundLen st; roundLenUnit := roundLenUnit st;
     sideMm := sideMm st; thMm := thMm st; sqLenM := v |}.

(** the effect on [pipeType]: reset fields when switching type *)
Definition useEffect (st : State) : State :=
  match pipeType st with
  | Round => calls [setSideMm ""; setThMm ""; setSqLenM ""] st
  | Square =>
      calls [setOdIn ""; setThIn ""; setRoundLen ""; setRoundLenUnit ft] st
  end.

Definition resetAll : State -> State :=
  calls [setPipeType Round; setOdIn ""; setThIn ""; setRoundLen "";
         setRoundLenUnit ft; setSideMm ""; setThMm ""; setSqLenM ""].

Definition PipeType_eqb (a b : PipeType) : bool :=
  match a, b with
  | Round, Round | Square, Square => true
  | _, _ => false
  end.

(** what the user can do: the Reset button, the two type buttons, and the
    fields and the unit selector of a form *)
Inductive Event : Type :=
| ClickReset
| ClickType (p : PipeType)
| EditOdIn (v : string)
| EditThIn (v : string)
| EditRoundLen (v : string)
| SelectRoundLenUnit (u : RoundLenUnit)
| EditSideMm (v : string)
| EditThMm (v : string)
| EditSqLenM (v : string).

(** a form is rendered only for its own pipe type *)
Definition rendered (st : State) (ev : Event) : bool :=
  match ev with
  | ClickReset | ClickType _ => true
  | EditOdIn _ | EditThIn _ | EditRoundLen _ | SelectRoundLenUnit _ =>
      PipeType_eqb (pipeType st) Round
  | EditSideMm _ | EditThMm _ | EditSqLenM _ =>
      PipeType_eqb (pipeType st) Square
  end.

Definition handler (ev : Event) : State -> State :=
  match ev with
  | ClickReset => resetAll
  | ClickType p => setPipeType p
  | EditOdIn v => setOdIn v
  | EditThIn v => setThIn v
  | EditRoundLen v => setRoundLen v
  | SelectRoundLenUnit u => setRoundLenUnit u
  | EditSideMm v => setSideMm v
  | EditThMm v => setThMm v
  | EditSqLenM v => setSqLenM v
  end.

(** an event on the page: its handler, then the effect if [pipeType] is
    no longer the same *)
Definition step (st : State) (ev : Event) : State :=
  if rendered st ev then
    let st' := handler ev st in
    if PipeType_eqb (pipeType st) (pipeType st') then st' else useEffect st'
  else st.

(** the state after a sequence of events on the mounted page; the effect
    has run once, on mount *)
Definition run (evs : list Event) : State :=
  fold_left step evs (useEffect initial).

(** the form with every field at its default *)
Definition blank (p : PipeType) : State := setPipeType p initial.

(** the fields of the form that is not rendered hold their defaults *)
Definition otherFormBlank (st : State) : Prop :=
  match pipeType st with
  | Round =>
      (sideMm st = "" /\ thMm st = "" /\ sqLenM st = "")%string
  | Square =>
      (odIn st = "" /\ thIn st = "" /\ roundLen st = "")%string /\
      roundLenUnit st = ft
  end.

Definition card (st : State) : Card :=
  let active := active (H := Float64.number) st in
  {| weightLabel := ("Weight per unit (" ++ unitLabel active ++ ")")%string;
     weightValue := (fmt (wPerUnit active) ++ " " ++ unitLabel active)%string;
     totalValue :=
       if Float64.finite (total active)
       then (fmt (total active) ++ " kg")%string
       else "—";
     noteText :=
       if ok active then note active
       else "Fill required fields to calculate.";
     tipShown := negb (ok active) |}.

End FormV1.

Module FormV2.
Import PageV2.

Definition initial : State :=
  {| pipeType := Round; odIn := ""; thMmRound := ""; roundLen := "";
     roundLenUnit := ft; sideIn := ""; thMmSq := ""; sqLen := "";
     sqLenUnit := m |}.

Definition setPipeType (p : PipeType) (st : State) : State :=
  {| pipeType := p; odIn := odIn st; thMmRound := thMmRound st;
     roundLen := roundLen st; roundLenUnit := roundLenUnit st;
     sideIn := sideIn st; thMmSq := thMmSq st; sqLen := sqLen st;
     sqLenUnit := sqLenUnit st |}.

Definition setOdIn (v : string) (st : State) : State :=
  {| pipeType := pipeType st; odIn := v; thMmRound := thMmRound st;
     roundLen := roundLen st; roundLenUnit := roundLenUnit st;
     sideIn := sideIn st; thMmSq := thMmSq st; sqLen := sqLen st;
     sqLenUnit := sqLenUnit st |}.

Definition setThMmRound (v : string) (st : State) : State :=
  {| pipeType := pipeType st; odIn := odIn st; thMmRound := v;
     roundLen := roundLen st; roundLenUnit := roundLenUnit st;
     sideIn := sideIn st; thMmSq := thMmSq st; sqLen := sqLen st;
     sqLenUnit := sqLenUnit st |}.

Definition setRoundLen (v : string) (st : State) : State :=
  {| pipeType := pipeType st; odIn := odIn st; thMmRound := thMmRound st;
     roundLen := v; roundLenUnit := roundLenUnit st;
     sideIn := sideIn st; thMmSq := thMmSq st; sqLen := sqLen st;
     sqLenUnit := sqLenUnit st |}.

Definition setRoundLenUnit (u : LenUnit) (st : State) : State :=
  {| pipeType := pipeType st; odIn := odIn st; thMmRound := thMmRound st;
     roundLen := roundLen st; roundLenUnit := u;
     sideIn := sideIn st; thMmSq := thMmSq st; sqLen := sqLen st;
     sqLenUnit := sqLenUnit st |}.

Definition setSideIn (v : string) (st : State) : State :=
  {| pipeType := pipeType st; odIn := odIn st; thMmRound := thMmRound st;
     roundLen := roundLen st; roundLenUnit := roundLenUnit st;
     sideIn := v; thMmSq := thMmSq st; sqLen := sqLen st;
     sqLenUnit := sqLenUnit st |}.

Definition setThMmSq (v : string) (st : State) : State :=
  {| pipeType := pipeType st; odIn := odIn st; thMmRound := thMmRound st;
     roundLen := roundLen st; roundLenUnit := roundLenUnit st;
     sideIn := sideIn st; thMmSq := v; sqLen := sqLen st;
     sqLenUnit := sqLenUnit st |}.

Definition setSqLen (v : string) (st : State) : State :=
  {| pipeType := pipeType st; odIn := odIn st; thMmRound := thMmRound st;
     roundLen := roundLen st; roundLenUnit := roundLenUnit st;
     sideIn := sideIn st; thMmSq := thMmSq st; sqLen := v;
     sqLenUnit := sqLenUnit st |}.

Definition setSqLenUnit (u : LenUnit) (st : State) : State :=
  {| pipeType := pipeType st; odIn := odIn st; thMmRound := thMmRound st;
     roundLen := roundLen st; roundLenUnit := roundLenUnit st;
     sideIn := sideIn st; thMmSq := thMmSq st; sqLen := sqLen st;
     sqLenUnit := u |}.

(** the effect on [pipeType]: reset fields when switching type *)
Definition useEffect (st : State) : State :=
  match pipeType st with
  | Round =>
      calls [setSideIn ""; setThMmSq ""; setSqLen ""; setSqLenUnit m] st
  | Square =>
      calls [setOdIn ""; setThMmRound ""; setRoundLen ""; setRoundLenUnit ft]
            st
  end.

Definition resetAll : State -> State :=
  calls [setPipeType Round; setOdIn ""; setThMmRound ""; setRoundLen "";
         setRoundLenUnit ft; setSideIn ""; setThMmSq ""; setSqLen "";
         setSqLenUnit m].

Definition PipeType_eqb (a b : PipeType) : bool :=
  match a, b with
  | Round, Round | Square, Square => true
  | _, _ => false
  end.

Inductive Event : Type :=
| ClickReset
| ClickType (p : PipeType)
| EditOdIn (v : string)
| EditThMmRound (v : string)
| EditRoundLen (v : string)
| SelectRoundLenUnit (u : LenUnit)
| EditSideIn (v : string)
| EditThMmSq (v : string)
| EditSqLen (v : string)
| SelectSqLenUnit (u : LenUnit).

Definition rendered (st : State) (ev : Event) : bool :=
  match ev with
  | ClickReset | ClickType _ => true
  | EditOdIn _ | EditThMmRound _ | EditRoundLen _ | SelectRoundLenUnit _ =>
      PipeType_eqb (pipeType st) Round
  | EditSideIn _ | EditThMmSq _ | EditSqLen _ | SelectSqLenUnit _ =>
      PipeType_eqb (pipeType st) Square
  end.

Definition handler (ev : Event) : State -> State :=
  match ev with
  | ClickReset => resetAll
  | ClickType p => setPipeType p
  | EditOdIn v => setOdIn v
  | EditThMmRound v => setThMmRound v
  | EditRoundLen v => setRoundLen v
  | SelectRoundLenUnit u => setRoundLenUnit u
  | EditSideIn v => setSideIn v
  | EditThMmSq v => setThMmSq v
  | EditSqLen v => setSqLen v
  | SelectSqLenUnit u => setSqLenUnit u
  end.

Definition step (st : State) (ev : Event) : State :=
  if rendered st ev then
    let st' := handler ev st in
    if PipeType_eqb (pipeType st) (pipeType st') then st' else useEffect st'
  else st.

Definition run (evs : list Event) : State :=
  fold_left step evs (useEffect initial).

Definition blank (p : PipeType) : State := setPipeType p initial.

Definition otherFormBlank (st : State) : Prop :=
  match pipeType st with
  | Round =>
      (sideIn st = "" /\ thMmSq st = "" /\ sqLen st = "")%string /\
      sqLenUnit st = m
  | Square =>
      (odIn st = "" /\ thMmRound st = "" /\ roundLen st = "")%string /\
      roundLenUnit st = ft
  end.

Definition card (st : State) : Card :=
  let active := active (H := Float64.number) st in
  {| weightLabel := ("Weight per unit (" ++ unitLabel active ++ ")")%string;
     weightValue := (fmt (wPerUnit active) ++ " " ++ unitLabel active)%string;
     totalValue :=
       if Float64.finite (total active)
       then (fmt (total active) ++ " kg")%string
       else "—";
     noteText :=
       if ok active then note active
       else "Fill required fields to calculate.";
     tipShown := negb (ok active) |}.

End FormV2.

(** ** The form of [src/unnamed/part_000] *)

Module FormV3.
Import PageV3.

Definition fmt (v : Float64.t) : string :=
  if Float64.finite v then NumberToString.toFixed 2 v else "—".

Record State : Type := {
  pipeType : PipeType;
  unit : Unit;
  od : string;
  side : string;
  width : string;
  height : string;
  thickness : string;
  length : string
}.

Definition initial : State :=
  {| pipeType := round; unit := mm_; od := ""; side := ""; width := "";
     height := ""; thickness := ""; length := "" |}.

Definition setPipeType (p : PipeType) (st : State) : State :=
  {| pipeType := p; unit := unit st; od := od st; side := side st;
     width := width st; height := height st; thickness := thickness st;
     length := length st |}.

Definition setUnit (u : Unit) (st : State) : State :=
  {| pipeType := pipeType st; unit := u; od := od st; side := side st;
     width := width st; height := height st; thickness := thickness st;
     length := length st |}.

Definition setOd (v : string) (st : State) : State :=
  {| pipeType := pipeType st; unit := unit st; od := v; side := side st;
     width := width st; height := height st; thickness := thickness st;
     length := length st |}.

Definition setSide (v : string) (st : State) : State :=
  {| pipeType := pipeType st; unit := unit st; od := od st; side := v;
     width := width st; height := height st; thickness := thickness st;
     length := length st |}.

Definition setWidth (v : string) (st : State) : State :=
  {| pipeType := pipeType st; unit := unit st; od := od st; side := side st;
     width := v; height := height st; thickness := thickness st;
     length := length st |}.

Definition setHeight (v : string) (st : State) : State :=
  {| pipeType := pipeType st; unit := unit st; od := od st; side := side st;
     width := width st; height := v; thickness := thickness st;
     length := length st |}.

Definition setThickness (v : string) (st : State) : State :=
  {| pipeType := pipeType st; unit := unit st; od := od st; side := side st;
     width := width st; height := height st; thickness := v;
     length := length st |}.

Definition setLength (v : string) (st : State) : State :=
  {| pipeType := pipeType st; unit := unit st; od := od st; side := side st;
     width := width st; height := height st; thickness := thickness st;
     length := v |}.

Definition reset : State -> State :=
  calls [setOd ""; setSide ""; setWidth ""; setHeight ""; setThickness "";
         setLength ""].

(** the two selectors and the inputs *)
Inductive Event : Type :=
| SelectPipeType (p : PipeType)
| SelectUnit (u : Unit)
| EditOd (v : string)
| EditSide (v : string)
| EditWidth (v : string)
| EditHeight (v : string)
| EditThickness (v : string)
| EditLength (v : string).

(** an input of a shape is rendered only for its own pipe type *)
Definition rendered (st : State) (ev : Event) : bool :=
  match ev with
  | EditOd _ => PipeType_eqb (pipeType st) round
  | EditSide _ => PipeType_eqb (pipeType st) square
  | EditWidth _ | EditHeight _ => PipeType_eqb (pipeType st) rectangle
  | _ => true
  end.

Definition handler (ev : Event) : State -> State :=
  match ev with
  | SelectPipeType p => calls [setPipeType p; reset]
  | SelectUnit u => setUnit u
  | EditOd v => setOd v
  | EditSide v => setSide v
  | EditWidth v => setWidth v
  | EditHeight v => setHeight v
  | EditThickness v => setThickness v
  | EditLength v => setLength v
  end.

Definition step (st : State) (ev : Event) : State :=
  if rendered st ev then handler ev st else st.

Definition run (evs : list Event) : State := fold_left step evs initial.

(** the memoised [result] of a state *)
Definition resultOf (st : State) : Result :=
  result (H := Float64.number) (pipeType st) (unit st) (od st) (side st)
         (width st) (height st) (thickness st) (length st).

(** the texts of the result box: the two weights, and whether the hint
    about valid dimensions is shown *)
Record Box : Type := {
  weightPerMeter : string;
  totalWeight : string;
  hintShown : bool
}.

Definition box (st : State) : Box :=
  let result := resultOf st in
  {| weightPerMeter := (fmt (wPerM result) ++ " kg/m")%string;
     totalWeight := (fmt (total result) ++ " kg")%string;
     hintShown := negb (ok result) |}.

End FormV3.

(** * Properties *)

(** ** The two instances satisfy the laws *)

Lemma SFcompare_refl_not_Lt (x : spec_float) : SFltb x x = false.
Proof.
  unfold SFltb.
  destruct x as [s|s| |s m e]; simpl; [reflexivity | now destruct s | reflexivity |].
  rewrite Z.compare_refl.
  change (PosDef.Pos.compare_cont Eq m m) with (Pos.compare_cont Eq m m).
  rewrite Pos.compare_cont_refl.
  destruct s; reflexivity.
Qed.

Lemma SFltb_SFleb (x y : spec_float) : SFltb x y = true -> SFleb x y = true.
Proof.
  unfold SFltb, SFleb.
  destruct (SFcompare x y) as [[| |]|]; intros; congruence.
Qed.

Lemma Float64_laws : @JsNumberLaws Float64.t Float64.number.
Proof.
  split; simpl; intros.
  - reflexivity.
  - reflexivity.
  - destruct x; reflexivity.
  - reflexivity.
  - destruct x; reflexivity.
  - reflexivity.
  - apply SFcompare_refl_not_Lt.
  - now apply SFltb_SFleb.
Qed.

Lemma Exact_laws : @JsNumberLaws Exact.t Exact.number.
Proof.
  split; simpl; intros.
  - reflexivity.
  - reflexivity.
  - destruct x; reflexivity.
  - reflexivity.
  - destruct x; reflexivity.
  - reflexivity.
  - destruct x as [|[]|r]; simpl; try reflexivity.
    unfold Exact.Rltb. destruct (Rlt_dec r r); [lra | reflexivity].
  - destruct x as [|[]|a], y as [|[]|b]; simpl in *; try congruence.
    unfold Exact.Rltb, Exact.Rleb in *.
    destruct (Rlt_dec a b); [|discriminate].
    destruct (Rle_dec a b); [reflexivity | lra].
Qed.

(** ** Facts that hold at every instance *)

Section SpecFacts.
Context {number : Type} `{JsNumberLaws number}.
Local Open Scope js_scope.


(** the boundary is exclusive: an outer dimension of exactly twice the
    thickness is infeasible *)
Lemma valid_boundary (T other : number) :
  Spec.valid (Spec.Round (lit 2 0 * T) T) = false /\
  Spec.valid (Spec.Square (lit 2 0 * T) T) = false /\
  Spec.valid (Spec.Rectangle (lit 2 0 * T) other T) = false /\
  Spec.valid (Spec.Rectangle other (lit 2 0 * T) T) = false.
Proof.
  simpl. rewrite !lt_irrefl, ?andb_false_r. auto.
Qed.

Lemma totalWeight_NaN (w : number) : Spec.totalWeight w NaN = NaN.
Proof. unfold Spec.totalWeight. now rewrite isFinite_NaN. Qed.

(** filtering the run length through [isFinite] does not change the total *)
Lemma totalWeight_finite_filter (w x : number) :
  Spec.totalWeight w (if isFinite x then x else NaN) = Spec.totalWeight w x.
Proof.
  destruct (isFinite x) eqn:E; [reflexivity|].
  rewrite totalWeight_NaN. unfold Spec.totalWeight. now rewrite E.
Qed.

(** nor does clamping it to the nonnegative numbers *)
Lemma totalWeight_clamp_filter (w x : number) :
  Spec.totalWeight w (if isFinite x && (x >=? lit 0 0) then x else NaN)
  = Spec.totalWeight w x.
Proof.
  destruct (isFinite x) eqn:E; simpl.
  - destruct (lit 0 0 <=? x) eqn:E0; [reflexivity|].
    rewrite totalWeight_NaN. unfold Spec.totalWeight. rewrite E. simpl.
    destruct (lit 0 0 <? x) eqn:E1; [|reflexivity].
    apply lt_le in E1. congruence.
  - rewrite totalWeight_NaN. unfold Spec.totalWeight. now rewrite E.
Qed.
End SpecFacts.

Section PageV3Facts.
Context {number : Type} `{JsNumberLaws number}.
Local Open Scope js_scope.
Import PageV3.

(** [result], as one case distinction on the feasibility of the profile *)
Lemma v3_result_cases pipeType unit od side width height thickness length :
  let p := profile pipeType unit od side width height thickness in
  result pipeType unit od side width height thickness length
  = if Spec.valid p
    then {| ok := true;
            wPerM := shortcut p;
            total := Spec.totalWeight (shortcut p) (Number length) |}
    else invalid.
Proof.
  cbv zeta. unfold result, profile.
  destruct (lit 0 0 <? mm unit (n thickness)) eqn:ET.
  - destruct pipeType; simpl; rewrite ET; simpl.
    + destruct (_ <? mm unit (n od)); simpl; [|reflexivity].
      unfold n at 3. now rewrite <- totalWeight_finite_filter.
    + destruct (_ <? mm unit (n side)); simpl; [|reflexivity].
      unfold n at 3. now rewrite <- totalWeight_finite_filter.
    + destruct (_ <? mm unit (n width)); simpl; [|reflexivity].
      destruct (_ <? mm unit (n height)); simpl; [|reflexivity].
      unfold n at 4. now rewrite <- totalWeight_finite_filter.
  - destruct pipeType; simpl; rewrite ET; reflexivity.
Qed.

Lemma v3_mm_NaN unit : mm unit NaN = NaN.
Proof. destruct unit; simpl; [reflexivity | apply mul_NaN_l]. Qed.
End PageV3Facts.

Section PageV1Facts.
Context {number : Type} `{JsNumberLaws number}.
Local Open Scope js_scope.
Import PageV1.

Lemma v1_field_total (w : number) (v : string) :
  Spec.totalWeight w (field v) = Spec.totalWeight w (Number v).
Proof.
  unfold field, clampNonNegative, num. cbv zeta.
  now rewrite totalWeight_clamp_filter, totalWeight_finite_filter.
Qed.

Lemma v1_round_cases odIn thIn roundLen roundLenUnit :
  let od := field odIn in
  let t := field thIn in
  let w := match roundLenUnit with
           | ft => lit 1069 (-2) * (od - t) * t
           | m => lit 2466 (-2) * (od - t) * t
           end in
  round odIn thIn roundLen roundLenUnit
  = if validDims od t
    then {| ok := true;
            unitLabel := roundLabel roundLenUnit;
            wPerUnit := w;
            total := Spec.totalWeight w (Number roundLen);
            note := "Approx. steel weight based on a common industry formula." |}
    else {| ok := false;
            unitLabel := roundLabel roundLenUnit;
            wPerUnit := NaN;
            total := NaN;
            note := "Enter OD and Thickness in inches. OD must be greater than Thickness." |}.
Proof.
  cbv zeta. unfold round. fold (field odIn) (field thIn) (field roundLen).
  fold (validDims (field odIn) (field thIn)).
  destruct (validDims _ _); simpl; [|reflexivity].
  now rewrite <- v1_field_total.
Qed.

Lemma v1_square_cases sideMm thMm sqLenM :
  let S := field sideMm in
  let t := field thMm in
  let w := (lit 4 0 * t * (S - t) * lit 785 (-2)) / lit 1000 0 in
  square sideMm thMm sqLenM
  = if validDims S t
    then {| ok := true;
            unitLabel := "kg/m";
            wPerUnit := w;
            total := Spec.totalWeight w (Number sqLenM);
            note := "Approx. steel weight (7.85 density factor)." |}
    else {| ok := false;
            unitLabel := "kg/m";
            wPerUnit := NaN;
            total := NaN;
            note := "Enter Side and Thickness in mm. Side must be greater than Thickness." |}.
Proof.
  cbv zeta. unfold square. fold (field sideMm) (field thMm) (field sqLenM).
  fold (validDims (field sideMm) (field thMm)).
  destruct (validDims _ _); simpl; [|reflexivity].
  now rewrite <- v1_field_total.
Qed.

End PageV1Facts.

Section PageV2Facts.
Context {number : Type} `{JsNumberLaws number}.
Local Open Scope js_scope.
Import PageV2.

Lemma v2_field_total (w : number) (v : string) :
  Spec.totalWeight w (field v) = Spec.totalWeight w (Number v).
Proof.
  unfold field, clampNonNegative, num. cbv zeta.
  now rewrite totalWeight_clamp_filter, totalWeight_finite_filter.
Qed.

Lemma v2_round_cases odIn thMmRound roundLen roundLenUnit :
  let odMm := outerMm odIn in
  let tMm := field thMmRound in
  let w := kgPerUnitFromArea (areaRoundMm2 odMm tMm) roundLenUnit in
  round odIn thMmRound roundLen roundLenUnit
  = if isFinite odMm && isFinite tMm && Spec.valid (Spec.Round odMm tMm)
    then {| ok := true;
            unitLabel := label roundLenUnit;
            wPerUnit := w;
            total := Spec.totalWeight w (Number roundLen);
            note := "Calculated using geometry + steel density (7850 kg/m³)." |}
    else {| ok := false;
            unitLabel := label roundLenUnit;
            wPerUnit := NaN;
            total := NaN;
            note := "Round: OD must be in inches, Thickness in mm, and OD > 2×Thickness." |}.
Proof.
  cbv zeta. unfold round.
  fold (field odIn) (field thMmRound) (field roundLen). fold (outerMm odIn).
  simpl Spec.valid. rewrite !andb_assoc.
  destruct (_ && _ && _ && _); simpl; [|reflexivity].
  now rewrite <- v2_field_total.
Qed.

Lemma v2_square_cases sideIn thMmSq sqLen sqLenUnit :
  let sideMm := outerMm sideIn in
  let tMm := field thMmSq in
  let w := kgPerUnitFromArea (areaSquareTubeMm2 sideMm tMm) sqLenUnit in
  square sideIn thMmSq sqLen sqLenUnit
  = if isFinite sideMm && isFinite tMm && Spec.valid (Spec.Square sideMm tMm)
    then {| ok := true;
            unitLabel := label sqLenUnit;
            wPerUnit := w;
            total := Spec.totalWeight w (Number sqLen);
            note := "Calculated using geometry + steel density (7850 kg/m³)." |}
    else {| ok := false;
            unitLabel := label sqLenUnit;
            wPerUnit := NaN;
            total := NaN;
            note := "Square: Side must be in inches, Thickness in mm, and Side > 2×Thickness." |}.
Proof.
  cbv zeta. unfold square.
  fold (field sideIn) (field thMmSq) (field sqLen). fold (outerMm sideIn).
  simpl Spec.valid. rewrite !andb_assoc.
  destruct (_ && _ && _ && _); simpl; [|reflexivity].
  now rewrite <- v2_field_total.
Qed.

End PageV2Facts.

(** * The program on binary64 *)

Section Binary64.
Local Existing Instance Float64.number.
Local Existing Instance Float64_laws.
Local Open Scope string_scope.
Local Open Scope js_scope.

(** ** Validity of a profile *)

(** C2, as stated, fails on generation 1.  Its square tube is entered in
    millimetres: a side of 15 with a wall of 10 is reported valid although
    15 does not exceed twice 10, and so is a side of 20, exactly twice the
    wall; likewise the round tube of diameter 1.5 and wall 1 (inches). *)
Lemma gen1_accepts_outer_below_twice_thickness :
  PageV1.ok (PageV1.square (number := Float64.t) "15" "10" "") = true /\
  Spec.valid (number := Float64.t)
    (Spec.Square (PageV1.field "15") (PageV1.field "10")) = false /\
  PageV1.ok (PageV1.square (number := Float64.t) "20" "10" "") = true /\
  Spec.valid (number := Float64.t)
    (Spec.Square (PageV1.field "20") (PageV1.field "10")) = false /\
  PageV1.ok (PageV1.round (number := Float64.t) "1.5" "1" "" PageV1.m) = true /\
  Spec.valid (number := Float64.t)
    (Spec.Round (Spec.toMillimeters true (PageV1.field "1.5"))
                (Spec.toMillimeters true (PageV1.field "1"))) = false.
Proof. vm_compute. repeat split; reflexivity. Qed.

(** C2, amended.  On binary64: generation 3 reports a profile valid exactly
    when thickness > 0 and every outer dimension exceeds twice the thickness
    (all three shapes, dimensions in millimetres); generation 2 asks in
    addition that both dimensions be finite; generation 1 asks only for
    finite dimensions with 0 < thickness < outer dimension, on the numbers
    as entered.  An outer dimension of exactly twice the thickness is
    infeasible. *)
Theorem validity_rule_of_each_generation :
  (forall pipeType unit od side width height thickness length,
     PageV3.ok (PageV3.result (number := Float64.t)
                  pipeType unit od side width height thickness length)
     = Spec.valid (PageV3.profile pipeType unit od side width height thickness))
  /\
  (forall odIn thMmRound roundLen roundLenUnit,
     PageV2.ok (PageV2.round (number := Float64.t)
                  odIn thMmRound roundLen roundLenUnit)
     = isFinite (PageV2.outerMm odIn) && isFinite (PageV2.field thMmRound)
       && Spec.valid (PageV2.roundProfile odIn thMmRound))
  /\
  (forall sideIn thMmSq sqLen sqLenUnit,
     PageV2.ok (PageV2.square (number := Float64.t)
                  sideIn thMmSq sqLen sqLenUnit)
     = isFinite (PageV2.outerMm sideIn) && isFinite (PageV2.field thMmSq)
       && Spec.valid (PageV2.squareProfile sideIn thMmSq))
  /\
  (forall odIn thIn roundLen roundLenUnit,
     PageV1.ok (PageV1.round (number := Float64.t)
                  odIn thIn roundLen roundLenUnit)
     = PageV1.validDims (PageV1.field odIn) (PageV1.field thIn))
  /\
  (forall sideMm thMm sqLenM,
     PageV1.ok (PageV1.square (number := Float64.t) sideMm thMm sqLenM)
     = PageV1.validDims (PageV1.field sideMm) (PageV1.field thMm))
  /\
  (forall T other : Float64.t,
     Spec.valid (Spec.Round (lit 2 0 * T) T) = false /\
     Spec.valid (Spec.Square (lit 2 0 * T) T) = false /\
     Spec.valid (Spec.Rectangle (lit 2 0 * T) other T) = false /\
     Spec.valid (Spec.Rectangle other (lit 2 0 * T) T) = false).
Proof.
  repeat apply conj; intros.
  - rewrite v3_result_cases. cbv zeta. now destruct (Spec.valid _).
  - rewrite v2_round_cases. cbv zeta. unfold PageV2.roundProfile.
    now destruct (_ && _ && _).
  - rewrite v2_square_cases. cbv zeta. unfold PageV2.squareProfile.
    now destruct (_ && _ && _).
  - rewrite v1_round_cases. cbv zeta. now destruct (PageV1.validDims _ _).
  - rewrite v1_square_cases. cbv zeta. now destruct (PageV1.validDims _ _).
  - apply (valid_boundary T other).
Qed.

(** ** The invalid result *)



(** ** Total weight *)

(** C4.  On binary64, in every generation: the total of a valid result is
    the weight per unit times the run length when the run length read from
    the text is finite and strictly positive, and NaN otherwise (an empty
    field reads as 0, so it gives NaN); the validity flag and the weight per
    unit do not depend on the run length; every function is total, so
    nothing is raised. *)
Theorem total_weight_of_the_run_length :
  (forall pipeType unit od side width height thickness length,
     let r := PageV3.result (number := Float64.t)
                pipeType unit od side width height thickness length in
     PageV3.total r
     = (if PageV3.ok r
        then Spec.totalWeight (PageV3.wPerM r) (Number length) else NaN)
     /\ (forall length',
           let r' := PageV3.result pipeType unit od side width height
                       thickness length' in
           PageV3.ok r' = PageV3.ok r /\ PageV3.wPerM r' = PageV3.wPerM r))
  /\
  (forall odIn thMmRound roundLen roundLenUnit,
     let r := PageV2.round (number := Float64.t)
                odIn thMmRound roundLen roundLenUnit in
     PageV2.total r
     = (if PageV2.ok r
        then Spec.totalWeight (PageV2.wPerUnit r) (Number roundLen) else NaN)
     /\ (forall roundLen',
           let r' := PageV2.round odIn thMmRound roundLen' roundLenUnit in
           PageV2.ok r' = PageV2.ok r /\ PageV2.wPerUnit r' = PageV2.wPerUnit r))
  /\
  (forall sideIn thMmSq sqLen sqLenUnit,
     let r := PageV2.square (number := Float64.t)
                sideIn thMmSq sqLen sqLenUnit in
     PageV2.total r
     = (if PageV2.ok r
        then Spec.totalWeight (PageV2.wPerUnit r) (Number sqLen) else NaN)
     /\ (forall sqLen',
           let r' := PageV2.square sideIn thMmSq sqLen' sqLenUnit in
           PageV2.ok r' = PageV2.ok r /\ PageV2.wPerUnit r' = PageV2.wPerUnit r))
  /\
  (forall odIn thIn roundLen roundLenUnit,
     let r := PageV1.round (number := Float64.t)
                odIn thIn roundLen roundLenUnit in
     PageV1.total r
     = (if PageV1.ok r
        then Spec.totalWeight (PageV1.wPerUnit r) (Number roundLen) else NaN)
     /\ (forall roundLen',
           let r' := PageV1.round odIn thIn roundLen' roundLenUnit in
           PageV1.ok r' = PageV1.ok r /\ PageV1.wPerUnit r' = PageV1.wPerUnit r))
  /\
  (forall sideMm thMm sqLenM,
     let r := PageV1.square (number := Float64.t) sideMm thMm sqLenM in
     PageV1.total r
     = (if PageV1.ok r
        then Spec.totalWeight (PageV1.wPerUnit r) (Number sqLenM) else NaN)
     /\ (forall sqLenM',
           let r' := PageV1.square sideMm thMm sqLenM' in
           PageV1.ok r' = PageV1.ok r /\ PageV1.wPerUnit r' = PageV1.wPerUnit r))
  /\
  (forall w : Float64.t,
     Spec.totalWeight w (Number "") = NaN /\
     Spec.totalWeight w (Number "0") = NaN /\
     Spec.totalWeight w (Number "-6") = NaN /\
     Spec.totalWeight w (Number "Infinity") = NaN /\
     Spec.totalWeight w (Number "six") = NaN /\
     Spec.totalWeight w (Number "6") = w * Number "6").
Proof.
  repeat apply conj; intros; try (split; intros).
  - subst r. rewrite v3_result_cases. cbv zeta. now destruct (Spec.valid _).
  - subst r r'. rewrite !v3_result_cases. cbv zeta. now destruct (Spec.valid _).
  - subst r. rewrite v2_round_cases. cbv zeta. now destruct (_ && _ && _).
  - subst r r'. rewrite !v2_round_cases. cbv zeta. now destruct (_ && _ && _).
  - subst r. rewrite v2_square_cases. cbv zeta. now destruct (_ && _ && _).
  - subst r r'. rewrite !v2_square_cases. cbv zeta. now destruct (_ && _ && _).
  - subst r. rewrite v1_round_cases. cbv zeta. now destruct (PageV1.validDims _ _).
  - subst r r'. rewrite !v1_round_cases. cbv zeta.
    now destruct (PageV1.validDims _ _).
  - subst r. rewrite v1_square_cases. cbv zeta. now destruct (PageV1.validDims _ _).
  - subst r r'. rewrite !v1_square_cases. cbv zeta.
    now destruct (PageV1.validDims _ _).
  - reflexivity.
  - repeat apply conj; reflexivity.
Qed.

(** ** Unit normalisation *)

(** C6.  On binary64: normalising a dimension given in inches multiplies it
    by the constant 25.4, before the validity check and the weight formula
    ([inchesToMm] in generation 2, [mm] in generation 3; millimetres pass
    unchanged); 2 inches normalise to the very number 50.8, so the round tube
    of 2 inch by 2 mm weighs exactly what the geometry gives for 50.8 mm by
    2 mm, for either run unit; and in generation 3 the tube entered in inches
    (2 by 0.1, or 2 by 0.07874015748031496, which is 2 mm) weighs what the
    same tube entered in millimetres does, to within 1e-9 of it. *)
Theorem inches_are_multiplied_by_25_4 :
  (forall xIn : Float64.t, PageV2.inchesToMm xIn = xIn * lit 254 (-1))
  /\
  (forall v : Float64.t,
     PageV3.mm PageV3.in_ v = v * lit 254 (-1) /\ PageV3.mm PageV3.mm_ v = v)
  /\
  (forall v : string,
     isFinite (PageV2.field (number := Float64.t) v) = true ->
     PageV2.outerMm v = Spec.toMillimeters true (PageV2.field v))
  /\
  PageV2.outerMm (number := Float64.t) "2" = Number "50.8"
  /\
  (forall roundLen roundLenUnit,
     let r := PageV2.round (number := Float64.t) "2" "2" roundLen roundLenUnit in
     let w := Spec.weightPerRunUnit
                (Spec.area (Spec.Round (Number "50.8") (Number "2")))
                (PageV2.runUnit roundLenUnit) in
     PageV2.ok r = true /\ PageV2.wPerUnit r = w /\
     within (lit 1 (-9)) (PageV2.wPerUnit r) w = true)
  /\
  (forall length,
     PageV3.result (number := Float64.t)
       PageV3.round PageV3.in_ "2" "" "" "" "0.1" length
     = PageV3.result PageV3.round PageV3.mm_ "50.8" "" "" "" "2.54" length)
  /\
  (let a := PageV3.result (number := Float64.t)
              PageV3.round PageV3.in_ "2" "" "" "" "0.07874015748031496" "" in
   let b := PageV3.result (number := Float64.t)
              PageV3.round PageV3.mm_ "50.8" "" "" "" "2" "" in
   PageV3.ok a = true /\ PageV3.ok b = true /\
   within (lit 1 (-9)) (PageV3.wPerM a) (PageV3.wPerM b) = true).
Proof.
  repeat apply conj; intros; repeat apply conj.
  - reflexivity.
  - reflexivity.
  - reflexivity.
  - unfold PageV2.outerMm. rewrite H. reflexivity.
  - vm_compute. reflexivity.
  - subst r. rewrite v2_round_cases. cbv zeta.
    match goal with
    | |- context [if ?c then _ else _] =>
        replace c with true by (vm_compute; reflexivity)
    end.
    reflexivity.
  - subst r w. rewrite v2_round_cases. cbv zeta.
    match goal with
    | |- context [if ?c then _ else _] =>
        replace c with true by (vm_compute; reflexivity)
    end.
    cbn [PageV2.wPerUnit]. destruct roundLenUnit; vm_compute; reflexivity.
  - subst r w. rewrite v2_round_cases. cbv zeta.
    match goal with
    | |- context [if ?c then _ else _] =>
        replace c with true by (vm_compute; reflexivity)
    end.
    cbn [PageV2.wPerUnit]. destruct roundLenUnit; vm_compute; reflexivity.
  - rewrite !v3_result_cases. cbv zeta.
    replace (PageV3.profile PageV3.round PageV3.in_ "2" "" "" "" "0.1")
      with (PageV3.profile (number := Float64.t)
              PageV3.round PageV3.mm_ "50.8" "" "" "" "2.54")
      by (vm_compute; reflexivity).
    reflexivity.
  - vm_compute; reflexivity.
  - vm_compute; reflexivity.
  - vm_compute; reflexivity.
Qed.

(** the hypothesis of the third part of C6 at the text "2" *)
Lemma inches_are_multiplied_by_25_4_witness :
  PageV2.outerMm (number := Float64.t) "2"
  = Spec.toMillimeters true (PageV2.field "2").
Proof.
  apply (proj1 (proj2 (proj2 inches_are_multiplied_by_25_4))).
  vm_compute. reflexivity.
Defined.

(** ** Run units *)

(** C7 on generation 1: for the round tube of 2 inch by 0.1 inch the weight
    per foot is 2.0311 and the weight per metre 4.6854; per foot times
    1/0.3048 is more than 1.4 times the weight per metre.  Generation 2 on
    the tube of 2 inch by 2 mm gives the same number both ways. *)
Theorem gen1_weights_per_foot_and_per_metre_disagree :
  let perFoot := PageV1.round (number := Float64.t) "2" "0.1" "" PageV1.ft in
  let perMetre := PageV1.round (number := Float64.t) "2" "0.1" "" PageV1.m in
  let oneOver := lit 1 0 / lit 3048 (-4) in
  PageV1.ok perFoot = true /\ PageV1.ok perMetre = true /\
  PageV1.unitLabel perFoot = "kg/ft" /\ PageV1.unitLabel perMetre = "kg/m" /\
  within (lit 1 (-9)) (PageV1.wPerUnit perFoot) (lit 20311 (-4)) = true /\
  within (lit 1 (-9)) (PageV1.wPerUnit perMetre) (lit 46854 (-4)) = true /\
  (lit 14 (-1) * PageV1.wPerUnit perMetre
    <? PageV1.wPerUnit perFoot * oneOver) = true /\
  within (lit 1 (-9))
    (PageV2.wPerUnit (PageV2.round "2" "2" "" PageV2.ft) * oneOver)
    (PageV2.wPerUnit (PageV2.round "2" "2" "" PageV2.m)) = true.
Proof. vm_compute. repeat split; reflexivity. Qed.

(** ** Reading a number from a text field *)

(** C8, as stated, fails on generation 3: the text "-5" does not denote a
    finite nonnegative number, and [n] passes the number -5 on. *)
Lemma gen3_reads_a_negative_number :
  isFinite (Number (number := Float64.t) "-5")
    && (Number (number := Float64.t) "-5" >=? lit 0 0) = false /\
  PageV3.n (number := Float64.t) "-5" <> NaN /\
  PageV3.n (number := Float64.t) "-5" = decimal true 5 0 /\
  (PageV3.n (number := Float64.t) "-5" <? lit 0 0) = true.
Proof. vm_compute. repeat split; try reflexivity. discriminate. Qed.

(** *** Negative numbers in generation 3 *)

(** the possible forms of a negative number *)
Lemma negative_forms (x : Float64.t) :
  (x <? lit 0 0) = true ->
  x = S754_infinity true \/ exists m e, x = S754_finite true m e.
Proof.
  destruct x as [s|s| |s m e]; simpl; unfold SFltb; simpl;
    try destruct s; try discriminate; intros _; eauto.
Qed.

Lemma binary_round_aux_sign (s : bool) (m e : Z) (l : SpecFloat.location) :
  let r := binary_round_aux Float64.prec Float64.emax s m e l in
  r = S754_nan \/ r = S754_zero s \/ r = S754_infinity s
  \/ exists m' e', r = S754_finite s m' e'.
Proof.
  cbv zeta. unfold binary_round_aux.
  destruct (shr_fexp _ _ _ _ _) as [mrs' e'].
  destruct (shr_fexp _ _ _ _ _) as [mrs'' e''].
  destruct (shr_m mrs'') as [|p|p]; auto.
  destruct (Z.leb _ _); eauto 6.
Qed.

Lemma mul_negative_by_positive (x y : Float64.t) :
  (x <? lit 0 0) = true -> (lit 0 0 <? y) = true -> Float64.notPositive (x * y).
Proof.
  intros Hx Hy. apply negative_forms in Hx.
  destruct y as [s|s| |s my ey]; simpl in Hy; unfold SFltb in Hy; simpl in Hy;
    try destruct s; try discriminate;
    destruct Hx as [-> | (mx & ex & ->)]; simpl; trivial.
  destruct (binary_round_aux_sign true (Z.pos (mx * my)) (ex + ey)
              SpecFloat.loc_Exact) as [E|[E|[E|(m' & e' & E)]]];
    simpl in E; rewrite E; simpl; trivial.
Qed.

Lemma mul_positive_by_positive (x y : Float64.t) :
  (lit 0 0 <? x) = true -> (lit 0 0 <? y) = true -> Float64.notNegative (x * y).
Proof.
  intros Hx Hy.
  destruct x as [s|s| |s mx ex]; simpl in Hx; unfold SFltb in Hx; simpl in Hx;
    try destruct s; try discriminate;
    destruct y as [s|s| |s my ey]; simpl in Hy; unfold SFltb in Hy;
    simpl in Hy; try destruct s; try discriminate; simpl; trivial.
  destruct (binary_round_aux_sign false (Z.pos (mx * my)) (ex + ey)
              SpecFloat.loc_Exact) as [E|[E|[E|(m' & e' & E)]]];
    simpl in E; rewrite E; simpl; trivial.
Qed.

Lemma notPositive_not_above (x y : Float64.t) :
  Float64.notPositive x -> Float64.notNegative y -> (y <? x) = false.
Proof.
  destruct x as [s|s| |s mx ex], y as [t|t| |t my ey]; simpl;
    unfold SFltb; simpl; intros Hx Hy; subst; trivial;
    try (destruct s; reflexivity); try (destruct t; reflexivity).
Qed.

Lemma negative_notPositive (x : Float64.t) :
  (x <? lit 0 0) = true -> Float64.notPositive x.
Proof.
  intros Hx. apply negative_forms in Hx.
  destruct Hx as [-> | (m & e & ->)]; reflexivity.
Qed.

(** in either unit, a negative entry is not positive in millimetres *)
Lemma v3_mm_negative (unit : PageV3.Unit) (x : Float64.t) :
  (x <? lit 0 0) = true -> Float64.notPositive (PageV3.mm unit x).
Proof.
  intros Hx. destruct unit; simpl.
  - now apply negative_notPositive.
  - apply mul_negative_by_positive; [exact Hx | reflexivity].
Qed.

(** the guards of generation 3 reject every negative entry *)
Lemma v3_negative_entry_is_invalid
      pipeType unit od side width height thickness :
  (exists v, In v (PageV3.fields pipeType od side width height thickness)
             /\ (PageV3.n (number := Float64.t) v <? lit 0 0) = true) ->
  Spec.valid (PageV3.profile (number := Float64.t)
                pipeType unit od side width height thickness) = false.
Proof.
  intros (v & Hin & Hneg).
  apply (v3_mm_negative unit) in Hneg.
  assert (Hzero : Float64.notNegative (lit 0 0 : Float64.t)) by exact I.
  destruct (lit 0 0 <? PageV3.mm unit (PageV3.n (number := Float64.t) thickness))
    eqn:ET.
  - assert (HT2 : Float64.notNegative
                    (lit 2 0 * PageV3.mm unit (PageV3.n thickness) : Float64.t))
      by (apply mul_positive_by_positive; [reflexivity | exact ET]).
    destruct pipeType; simpl in Hin;
      repeat match goal with
        | Hor : _ \/ _ |- _ => destruct Hor
        | Hf : False |- _ => destruct Hf
        end; subst; unfold PageV3.profile, Spec.valid;
      rewrite ?(notPositive_not_above _ _ Hneg Hzero),
              ?(notPositive_not_above _ _ Hneg HT2),
              ?andb_false_r;
      reflexivity.
  - destruct pipeType; unfold PageV3.profile, Spec.valid; rewrite ET;
      reflexivity.
Qed.

Lemma totalWeight_negative (w L : Float64.t) :
  (L <? lit 0 0) = true -> Spec.totalWeight w L = NaN.
Proof.
  intros HL. unfold Spec.totalWeight.
  assert (Hzero : Float64.notNegative (lit 0 0 : Float64.t)) by exact I.
  rewrite (notPositive_not_above L (lit 0 0) (negative_notPositive L HL) Hzero).
  now rewrite andb_false_r.
Qed.

(** C8, amended.  On binary64: in generations 1 and 2 a text that does not
    read as a finite nonnegative number contributes NaN, and a text that
    does contributes the number read; in generation 3 a text that does not
    read as a finite number contributes NaN and every finite number read,
    negative or not, is passed on as it is; the guards then reject it: a
    negative thickness or outer dimension of the active profile gives the
    invalid result, and a negative run length gives a NaN total.  NaN is not
    zero: it is not finite, and it compares with nothing. *)
Theorem value_read_from_a_text_field :
  (forall v : string,
     PageV1.field (number := Float64.t) v
     = if isFinite (Number v) && (Number v >=? lit 0 0) then Number v else NaN)
  /\
  (forall v : string,
     PageV2.field (number := Float64.t) v
     = if isFinite (Number v) && (Number v >=? lit 0 0) then Number v else NaN)
  /\
  (forall v : string,
     PageV3.n (number := Float64.t) v
     = if isFinite (Number v) then Number v else NaN)
  /\
  (forall pipeType unit od side width height thickness length,
     (exists v, In v (PageV3.fields pipeType od side width height thickness)
                /\ (PageV3.n (number := Float64.t) v <? lit 0 0) = true) ->
     PageV3.result (number := Float64.t)
       pipeType unit od side width height thickness length
     = {| PageV3.ok := false; PageV3.wPerM := NaN; PageV3.total := NaN |})
  /\
  (forall pipeType unit od side width height thickness length,
     (PageV3.n (number := Float64.t) length <? lit 0 0) = true ->
     PageV3.total (PageV3.result (number := Float64.t)
                     pipeType unit od side width height thickness length)
     = NaN)
  /\
  (isFinite (NaN : Float64.t) = false /\
   (NaN : Float64.t) <> lit 0 0 /\
   forall x : Float64.t,
     (NaN <? x) = false /\ (x <? NaN) = false /\
     (NaN <=? x) = false /\ (x <=? NaN) = false).
Proof.
  repeat apply conj; intros; repeat apply conj.
  - unfold PageV1.field, PageV1.clampNonNegative, PageV1.num. cbv zeta.
    destruct (isFinite (Number v)) eqn:E; [now rewrite E | reflexivity].
  - unfold PageV2.field, PageV2.clampNonNegative, PageV2.num. cbv zeta.
    destruct (isFinite (Number v)) eqn:E; [now rewrite E | reflexivity].
  - reflexivity.
  - rewrite v3_result_cases. cbv zeta.
    now rewrite (v3_negative_entry_is_invalid unit H).
  - rewrite v3_result_cases. cbv zeta.
    destruct (Spec.valid _); [|reflexivity]. cbn [PageV3.total].
    assert (Number length = PageV3.n (number := Float64.t) length) as ->.
    { unfold PageV3.n. cbv zeta.
      unfold PageV3.n in H. cbv zeta in H.
      destruct (isFinite (Number length)); [reflexivity | discriminate]. }
    now apply totalWeight_negative.
  - reflexivity.
  - discriminate.
  - apply lt_NaN_l.
  - apply lt_NaN_r.
  - apply le_NaN_l.
  - apply le_NaN_r.
Qed.

(** C8 amended, at a thickness of -5 and at a run length of -6 *)
Lemma value_read_from_a_text_field_witness :
  PageV3.result (number := Float64.t)
    PageV3.round PageV3.in_ "2" "" "" "" "-5" "6"
  = {| PageV3.ok := false; PageV3.wPerM := NaN; PageV3.total := NaN |}
  /\
  PageV3.total (PageV3.result (number := Float64.t)
                  PageV3.round PageV3.mm_ "50" "" "" "" "2" "-6") = NaN.
Proof.
  destruct value_read_from_a_text_field as (_ & _ & _ & Hdim & Hlen & _).
  split.
  - apply Hdim. exists "-5". split; [left; reflexivity | vm_compute; reflexivity].
  - apply Hlen. vm_compute. reflexivity.
Defined.

(** ** Rounding, overflow and absorption *)


(** C5, as stated, fails on binary64.  For the square tube of 20 mm by 1 mm
    the shortcut of generation 3 gives 0.5966 and the canonical formula
    0.5965999999999999, which is also what the geometry code of generation 2
    computes for that square; for the rectangular tube of 10 mm by 5 mm by
    1 mm the shortcut gives 0.2041 and the canonical formula
    0.20409999999999998.  For the square tube of 1e17 mm by 1 mm the
    shortcut gives 3.14e15 and the canonical formula 0, because
    [S - 2 * T] rounds to [S]. *)
Lemma shortcut_differs_from_the_geometry_on_binary64 :
  (let p := PageV3.profile (number := Float64.t)
              PageV3.square PageV3.mm_ "" "20" "" "" "1" in
   let r := PageV3.result (number := Float64.t)
              PageV3.square PageV3.mm_ "" "20" "" "" "1" "" in
   p = Spec.Square (Number "20") (Number "1") /\
   Spec.valid p = true /\ PageV3.ok r = true /\
   PageV3.wPerM r <> Spec.weightPerRunUnit (Spec.area p) Spec.meter /\
   PageV3.wPerM r
   <> PageV2.kgPerUnitFromArea
        (PageV2.areaSquareTubeMm2 (Number "20") (Number "1")) PageV2.m)
  /\
  (let p := PageV3.profile (number := Float64.t)
              PageV3.rectangle PageV3.mm_ "" "" "10" "5" "1" in
   let r := PageV3.result (number := Float64.t)
              PageV3.rectangle PageV3.mm_ "" "" "10" "5" "1" "" in
   p = Spec.Rectangle (Number "10") (Number "5") (Number "1") /\
   Spec.valid p = true /\ PageV3.ok r = true /\
   PageV3.wPerM r <> Spec.weightPerRunUnit (Spec.area p) Spec.meter)
  /\
  (let p := PageV3.profile (number := Float64.t)
              PageV3.square PageV3.mm_ "" "1e17" "" "" "1" in
   let r := PageV3.result (number := Float64.t)
              PageV3.square PageV3.mm_ "" "1e17" "" "" "1" "" in
   Spec.valid p = true /\ PageV3.ok r = true /\
   PageV3.wPerM r = Number "3.14e15" /\
   Spec.weightPerRunUnit (Spec.area p) Spec.meter = lit 0 0).
Proof.
  vm_compute. repeat split; try reflexivity; discriminate.
Qed.

(** C9, as stated, fails on binary64.  With a wall of 1 mm, the square tubes
    of side 1e17 and 2e17 inches are both valid, and for both the inner side
    [sideMm - 2 * tMm] rounds to [sideMm]: the area and the weight are 0 for
    the one and for the other. *)
Lemma area_does_not_increase_on_binary64 :
  let p := PageV2.squareProfile (number := Float64.t) "1e17" "1" in
  let p' := PageV2.squareProfile (number := Float64.t) "2e17" "1" in
  let r := PageV2.square (number := Float64.t) "1e17" "1" "" PageV2.m in
  let r' := PageV2.square (number := Float64.t) "2e17" "1" "" PageV2.m in
  Spec.grows p p' /\ Spec.valid p = true /\ Spec.valid p' = true /\
  PageV2.ok r = true /\ PageV2.ok r' = true /\
  (PageV2.areaSquareTubeMm2 (PageV2.outerMm "1e17") (PageV2.field "1")
   <? PageV2.areaSquareTubeMm2 (PageV2.outerMm "2e17") (PageV2.field "1"))
  = false /\
  (Spec.area p <? Spec.area p') = false /\
  (PageV2.wPerUnit r <? PageV2.wPerUnit r') = false /\
  PageV2.wPerUnit r = lit 0 0 /\ PageV2.wPerUnit r' = lit 0 0.
Proof.
  split.
  - unfold PageV2.squareProfile. constructor. vm_compute. reflexivity.
  - vm_compute. repeat split; reflexivity.
Qed.


End Binary64.

(** * The program in exact arithmetic *)

Section ExactArithmetic.
Local Existing Instance Exact.number.
Local Existing Instance Exact_laws.
Local Open Scope string_scope.
Local Open Scope R_scope.
Import Exact.

Lemma Rltb_true (a b : R) : Rltb a b = true <-> a < b.
Proof. unfold Rltb. destruct (Rlt_dec a b); split; intros; (congruence || lra). Qed.

Lemma Rleb_true (a b : R) : Rleb a b = true <-> a <= b.
Proof. unfold Rleb. destruct (Rle_dec a b); split; intros; (congruence || lra). Qed.

(** text fields hold NaN or a real number *)
Lemma v3_n_cases (v : string) :
  PageV3.n v = XNaN \/ exists r, PageV3.n v = XR r.
Proof.
  unfold PageV3.n. cbv zeta.
  destruct (Number v) as [| |r]; simpl; eauto.
Qed.

Lemma v3_mm_cases (unit : PageV3.Unit) (v : string) :
  PageV3.mm unit (PageV3.n v) = XNaN
  \/ exists r, PageV3.mm unit (PageV3.n v) = XR r.
Proof.
  destruct (v3_n_cases v) as [-> | [r ->]].
  - left. apply (v3_mm_NaN (H0 := Exact_laws) unit).
  - right. destruct unit; simpl; eauto.
Qed.

Lemma v1_field_cases (v : string) :
  PageV1.field v = XNaN \/ exists r, PageV1.field v = XR r /\ 0 <= r.
Proof.
  unfold PageV1.field, PageV1.clampNonNegative, PageV1.num. cbv zeta.
  destruct (Number v) as [| |r]; simpl; eauto.
  destruct (Rleb _ r) eqn:E; eauto.
  right. exists r. split; [reflexivity|].
  apply Rleb_true in E. simpl in E. lra.
Qed.

Lemma v2_field_cases (v : string) :
  PageV2.field v = XNaN \/ exists r, PageV2.field v = XR r /\ 0 <= r.
Proof.
  unfold PageV2.field, PageV2.clampNonNegative, PageV2.num. cbv zeta.
  destruct (Number v) as [| |r]; simpl; eauto.
  destruct (Rleb _ r) eqn:E; eauto.
  right. exists r. split; [reflexivity|].
  apply Rleb_true in E. simpl in E. lra.
Qed.

Lemma v2_outerMm_cases (v : string) :
  PageV2.outerMm v = XNaN
  \/ exists r, PageV2.field v = XR r /\ 0 <= r /\
               PageV2.outerMm v = XR (r * (254 / 10)).
Proof.
  unfold PageV2.outerMm.
  destruct (v2_field_cases v) as [-> | [r [-> Hr]]]; simpl; eauto.
Qed.

(** a feasible profile of real dimensions, in real numbers *)
Lemma valid_round_R (OD T : R) :
  Spec.valid (Spec.Round (XR OD) (XR T)) = true <-> 0 < T /\ 2 * T < OD.
Proof.
  simpl. rewrite andb_true_iff, !Rltb_true. simpl. lra.
Qed.

Lemma valid_square_R (S T : R) :
  Spec.valid (Spec.Square (XR S) (XR T)) = true <-> 0 < T /\ 2 * T < S.
Proof.
  simpl. rewrite andb_true_iff, !Rltb_true. simpl. lra.
Qed.

Lemma valid_rectangle_R (W H T : R) :
  Spec.valid (Spec.Rectangle (XR W) (XR H) (XR T)) = true
  <-> 0 < T /\ 2 * T < W /\ 2 * T < H.
Proof.
  simpl. rewrite !andb_true_iff, !Rltb_true. simpl. lra.
Qed.

(** the profile of generation 3 is feasible only on real dimensions *)
Lemma v3_valid_profile_is_real pipeType unit od side width height thickness :
  let p := PageV3.profile pipeType unit od side width height thickness in
  Spec.valid p = true ->
  (exists OD T, p = Spec.Round (XR OD) (XR T) /\ 0 < T /\ 2 * T < OD)
  \/ (exists S T, p = Spec.Square (XR S) (XR T) /\ 0 < T /\ 2 * T < S)
  \/ (exists W H T, p = Spec.Rectangle (XR W) (XR H) (XR T)
                    /\ 0 < T /\ 2 * T < W /\ 2 * T < H).
Proof.
  cbv zeta. unfold PageV3.profile.
  destruct (v3_mm_cases unit thickness) as [-> | [T ->]].
  - destruct pipeType; simpl; discriminate.
  - destruct pipeType.
    + destruct (v3_mm_cases unit od) as [-> | [OD ->]].
      * simpl. rewrite andb_false_r. discriminate.
      * intros Hv. left. exists OD, T. split; [reflexivity|].
        now apply valid_round_R.
    + destruct (v3_mm_cases unit side) as [-> | [S ->]].
      * simpl. rewrite andb_false_r. discriminate.
      * intros Hv. right; left. exists S, T. split; [reflexivity|].
        now apply valid_square_R.
    + destruct (v3_mm_cases unit width) as [-> | [W ->]].
      * simpl. rewrite andb_false_r. discriminate.
      * destruct (v3_mm_cases unit height) as [-> | [H ->]].
        -- simpl. rewrite andb_false_r. discriminate.
        -- intros Hv. right; right. exists W, H, T. split; [reflexivity|].
           now apply valid_rectangle_R.
Qed.

(** the formulas on real dimensions *)
Lemma shortcut_round_R (OD T : R) :
  PageV3.shortcut (Spec.Round (XR OD) (XR T))
  = XR (2466 / 100000 * (OD - T) * T).
Proof. reflexivity. Qed.

Lemma shortcut_square_R (S T : R) :
  PageV3.shortcut (Spec.Square (XR S) (XR T))
  = XR (4 * T * (S - T) * (785 / 100) / 1000).
Proof.
  unfold PageV3.shortcut. simpl. unfold Reqb.
  destruct (Req_dec_T _ _) as [E|E]; [lra | reflexivity].
Qed.

Lemma shortcut_rectangle_R (W H T : R) :
  PageV3.shortcut (Spec.Rectangle (XR W) (XR H) (XR T))
  = XR (2 * T * ((W + H) - 2 * T) * (785 / 100) / 1000).
Proof.
  unfold PageV3.shortcut. simpl. unfold Reqb.
  destruct (Req_dec_T _ _) as [E|E]; [lra | reflexivity].
Qed.

Lemma area_round_R (OD T : R) :
  Spec.area (Spec.Round (XR OD) (XR T))
  = XR (PI / 4 * (OD * OD - (OD - 2 * T) * (OD - 2 * T))).
Proof.
  unfold Spec.area. simpl. unfold Reqb.
  destruct (Req_dec_T _ _) as [E|E]; [lra | reflexivity].
Qed.

Lemma area_square_R (S T : R) :
  Spec.area (Spec.Square (XR S) (XR T))
  = XR (S * S - (S - 2 * T) * (S - 2 * T)).
Proof. reflexivity. Qed.

Lemma area_rectangle_R (W H T : R) :
  Spec.area (Spec.Rectangle (XR W) (XR H) (XR T))
  = XR (W * H - (W - 2 * T) * (H - 2 * T)).
Proof. reflexivity. Qed.

Lemma weightPerRunUnit_R (a : R) (u : Spec.RunUnit) :
  Spec.weightPerRunUnit (XR a) u
  = XR (a * runLengthMm (Spec.isFoot u) * (785 / 100000000)).
Proof. destruct u; reflexivity. Qed.

Lemma kgPerUnitFromArea_R (a : R) (u : PageV2.LenUnit) :
  PageV2.kgPerUnitFromArea (XR a) u
  = Spec.weightPerRunUnit (XR a) (PageV2.runUnit u).
Proof. destruct u; reflexivity. Qed.

Lemma areaRoundMm2_R (OD T : R) :
  2 * T < OD ->
  PageV2.areaRoundMm2 (XR OD) (XR T) = Spec.area (Spec.Round (XR OD) (XR T)).
Proof.
  intros Hb. unfold PageV2.areaRoundMm2. cbv zeta.
  replace (lit 0 0 <? XR OD - lit 2 0 * XR T)%js with true; [reflexivity|].
  symmetry. apply Rltb_true. simpl. lra.
Qed.

Lemma areaSquareTubeMm2_R (S T : R) :
  2 * T < S ->
  PageV2.areaSquareTubeMm2 (XR S) (XR T)
  = Spec.area (Spec.Square (XR S) (XR T)).
Proof.
  intros Hb. unfold PageV2.areaSquareTubeMm2. cbv zeta.
  replace (lit 0 0 <? XR S - lit 2 0 * XR T)%js with true; [reflexivity|].
  symmetry. apply Rltb_true. simpl. lra.
Qed.

(** the check of generation 2 passes only on real dimensions *)
Lemma v2_valid_is_real (outer th : string) :
  isFinite (PageV2.outerMm outer) && isFinite (PageV2.field th)
  && Spec.valid (Spec.Round (PageV2.outerMm outer) (PageV2.field th)) = true ->
  exists x T, PageV2.field outer = XR x /\ 0 <= x /\
              PageV2.outerMm outer = XR (x * (254 / 10)) /\
              PageV2.field th = XR T /\ 0 < T /\ 2 * T < x * (254 / 10).
Proof.
  destruct (v2_outerMm_cases outer) as [-> | (x & Hx & Hx0 & ->)];
    [discriminate|].
  destruct (v2_field_cases th) as [-> | (T & -> & HT)]; [discriminate|].
  rewrite !andb_true_l. intros Hv. apply valid_round_R in Hv.
  exists x, T. tauto.
Qed.

(** and the check of generation 1 *)
Lemma v1_valid_is_real (outer th : string) :
  PageV1.validDims (PageV1.field outer) (PageV1.field th) = true ->
  exists x T, PageV1.field outer = XR x /\ PageV1.field th = XR T /\
              0 < T /\ T < x.
Proof.
  unfold PageV1.validDims.
  destruct (v1_field_cases outer) as [-> | (x & -> & Hx)]; [discriminate|].
  destruct (v1_field_cases th) as [-> | (T & -> & HT)]; [discriminate|].
  rewrite !andb_true_l, andb_true_iff. simpl. rewrite !Rltb_true.
  intros [H0 H1]. exists x, T. simpl in H0. repeat split; trivial; lra.
Qed.

(** *** The arithmetic of the formulas *)


Lemma ring_area_increasing (OD OD' T : R) :
  0 < T -> OD < OD' ->
  OD * OD - (OD - 2 * T) * (OD - 2 * T)
  < OD' * OD' - (OD' - 2 * T) * (OD' - 2 * T).
Proof. intros. nra. Qed.

Lemma box_area_increasing (W W' H T : R) :
  0 < T -> W < W' ->
  W * H - (W - 2 * T) * (H - 2 * T) < W' * H - (W' - 2 * T) * (H - 2 * T).
Proof. intros. nra. Qed.

Lemma box_area_increasing_height (W H H' T : R) :
  0 < T -> H < H' ->
  W * H - (W - 2 * T) * (H - 2 * T) < W * H' - (W - 2 * T) * (H' - 2 * T).
Proof. intros. nra. Qed.

Lemma runLengthMm_positive (foot : bool) : 0 < runLengthMm foot.
Proof. destruct foot; unfold runLengthMm; lra. Qed.

Lemma weight_increasing (a a' : R) (foot : bool) :
  a < a' ->
  a * runLengthMm foot * (785 / 100000000)
  < a' * runLengthMm foot * (785 / 100000000).
Proof.
  intros Ha. pose proof (runLengthMm_positive foot) as Hl.
  apply Rmult_lt_compat_r; [lra|]. now apply Rmult_lt_compat_r.
Qed.




Lemma quarter_pi_positive : 0 < PI / 4.
Proof. pose proof PI_RGT_0. lra. Qed.

(** the weight of a valid result of each generation, as a real number *)
Lemma v3_valid_weight pipeType unit od side width height thickness length :
  let p := PageV3.profile pipeType unit od side width height thickness in
  let r := PageV3.result pipeType unit od side width height thickness length in
  PageV3.ok r = true ->
  Spec.valid p = true /\ PageV3.wPerM r = PageV3.shortcut p.
Proof.
  cbv zeta. rewrite v3_result_cases. cbv zeta.
  destruct (Spec.valid _); [split; reflexivity | discriminate].
Qed.

Lemma v2_round_valid_weight odIn thMmRound roundLen roundLenUnit :
  let r := PageV2.round odIn thMmRound roundLen roundLenUnit in
  PageV2.ok r = true ->
  exists x T, PageV2.roundProfile odIn thMmRound
              = Spec.Round (XR (x * (254 / 10))) (XR T) /\
              PageV2.field odIn = XR x /\
              0 < T /\ 2 * T < x * (254 / 10) /\
              PageV2.wPerUnit r
              = Spec.weightPerRunUnit
                  (Spec.area (PageV2.roundProfile odIn thMmRound))
                  (PageV2.runUnit roundLenUnit).
Proof.
  cbv zeta. rewrite v2_round_cases. cbv zeta.
  destruct (_ && _ && _) eqn:E; [|discriminate]. intros _.
  apply v2_valid_is_real in E.
  destruct E as (x & T & Hx & Hx0 & Hmm & HT & HT0 & Hb).
  exists x, T. unfold PageV2.roundProfile. rewrite Hmm, HT.
  repeat split; trivial. cbn [PageV2.wPerUnit].
  rewrite areaRoundMm2_R by assumption.
  rewrite area_round_R. apply kgPerUnitFromArea_R.
Qed.

Lemma v2_square_valid_weight sideIn thMmSq sqLen sqLenUnit :
  let r := PageV2.square sideIn thMmSq sqLen sqLenUnit in
  PageV2.ok r = true ->
  exists x T, PageV2.squareProfile sideIn thMmSq
              = Spec.Square (XR (x * (254 / 10))) (XR T) /\
              PageV2.field sideIn = XR x /\
              0 < T /\ 2 * T < x * (254 / 10) /\
              PageV2.wPerUnit r
              = Spec.weightPerRunUnit
                  (Spec.area (PageV2.squareProfile sideIn thMmSq))
                  (PageV2.runUnit sqLenUnit).
Proof.
  cbv zeta. rewrite v2_square_cases. cbv zeta.
  destruct (_ && _ && _) eqn:E; [|discriminate]. intros _.
  apply v2_valid_is_real in E.
  destruct E as (x & T & Hx & Hx0 & Hmm & HT & HT0 & Hb).
  exists x, T. unfold PageV2.squareProfile. rewrite Hmm, HT.
  repeat split; trivial. cbn [PageV2.wPerUnit].
  rewrite areaSquareTubeMm2_R by assumption.
  rewrite area_square_R. apply kgPerUnitFromArea_R.
Qed.

Lemma v1_round_valid_weight odIn thIn roundLen roundLenUnit :
  let r := PageV1.round odIn thIn roundLen roundLenUnit in
  PageV1.ok r = true ->
  exists x T, PageV1.field odIn = XR x /\ PageV1.field thIn = XR T /\
              0 < T /\ T < x /\
              PageV1.wPerUnit r
              = XR (match roundLenUnit with
                    | PageV1.ft => 1069 / 100
                    | PageV1.m => 2466 / 100
                    end * (x - T) * T).
Proof.
  cbv zeta. rewrite v1_round_cases. cbv zeta.
  destruct (PageV1.validDims _ _) eqn:E; [|discriminate]. intros _.
  apply v1_valid_is_real in E. destruct E as (x & T & -> & -> & HT & Hx).
  exists x, T. repeat split; trivial. destruct roundLenUnit; reflexivity.
Qed.

Lemma v1_square_valid_weight sideMm thMm sqLenM :
  let r := PageV1.square sideMm thMm sqLenM in
  PageV1.ok r = true ->
  exists x T, PageV1.field sideMm = XR x /\ PageV1.field thMm = XR T /\
              0 < T /\ T < x /\
              PageV1.wPerUnit r
              = PageV3.shortcut (Spec.Square (XR x) (XR T)).
Proof.
  cbv zeta. rewrite v1_square_cases. cbv zeta.
  destruct (PageV1.validDims _ _) eqn:E; [|discriminate]. intros _.
  apply v1_valid_is_real in E. destruct E as (x & T & -> & -> & HT & Hx).
  exists x, T. repeat split; trivial.
Qed.

(** ** A valid result has a positive weight *)


(** texts that read as nonnegative reals *)
Lemma v1_field_of_real (v : string) (x : R) :
  Number v = XR x -> 0 <= x -> PageV1.field v = XR x.
Proof.
  intros Hv Hx. unfold PageV1.field, PageV1.clampNonNegative, PageV1.num.
  cbv zeta. rewrite Hv. simpl.
  replace (Rleb _ x) with true; [reflexivity|].
  symmetry. apply Rleb_true. simpl. lra.
Qed.

Lemma v2_field_of_real (v : string) (x : R) :
  Number v = XR x -> 0 <= x -> PageV2.field v = XR x.
Proof.
  intros Hv Hx. unfold PageV2.field, PageV2.clampNonNegative, PageV2.num.
  cbv zeta. rewrite Hv. simpl.
  replace (Rleb _ x) with true; [reflexivity|].
  symmetry. apply Rleb_true. simpl. lra.
Qed.

Lemma v2_round_ok_of_real odIn thMmRound roundLen roundLenUnit (x T : R) :
  Number odIn = XR x -> Number thMmRound = XR T ->
  0 < T -> 2 * T < x * (254 / 10) ->
  PageV2.ok (PageV2.round odIn thMmRound roundLen roundLenUnit) = true.
Proof.
  intros Hx HT HT0 Hb. rewrite v2_round_cases. cbv zeta.
  assert (0 <= x) by lra.
  unfold PageV2.outerMm.
  rewrite (v2_field_of_real odIn Hx), (v2_field_of_real thMmRound HT) by lra.
  change (isFinite (XR x)) with true. cbv iota.
  change (PageV2.inchesToMm (XR x)) with (XR (x * (254 / 10))).
  replace (Spec.valid _) with true; [reflexivity|].
  symmetry. apply valid_round_R. lra.
Qed.

Lemma v2_square_ok_of_real sideIn thMmSq sqLen sqLenUnit (x T : R) :
  Number sideIn = XR x -> Number thMmSq = XR T ->
  0 < T -> 2 * T < x * (254 / 10) ->
  PageV2.ok (PageV2.square sideIn thMmSq sqLen sqLenUnit) = true.
Proof.
  intros Hx HT HT0 Hb. rewrite v2_square_cases. cbv zeta.
  assert (0 <= x) by lra.
  unfold PageV2.outerMm.
  rewrite (v2_field_of_real sideIn Hx), (v2_field_of_real thMmSq HT) by lra.
  change (isFinite (XR x)) with true. cbv iota.
  change (PageV2.inchesToMm (XR x)) with (XR (x * (254 / 10))).
  replace (Spec.valid _) with true; [reflexivity|].
  symmetry. apply valid_square_R. lra.
Qed.

Lemma v1_round_ok_of_real odIn thIn roundLen roundLenUnit (x T : R) :
  Number odIn = XR x -> Number thIn = XR T -> 0 < T -> T < x ->
  PageV1.ok (PageV1.round odIn thIn roundLen roundLenUnit) = true.
Proof.
  intros Hx HT HT0 Hb. rewrite v1_round_cases. cbv zeta.
  rewrite (v1_field_of_real odIn Hx), (v1_field_of_real thIn HT) by lra.
  replace (PageV1.validDims _ _) with true; [reflexivity|].
  symmetry. unfold PageV1.validDims. simpl.
  apply andb_true_iff; split; apply Rltb_true; simpl; lra.
Qed.

Lemma v1_square_ok_of_real sideMm thMm sqLenM (x T : R) :
  Number sideMm = XR x -> Number thMm = XR T -> 0 < T -> T < x ->
  PageV1.ok (PageV1.square sideMm thMm sqLenM) = true.
Proof.
  intros Hx HT HT0 Hb. rewrite v1_square_cases. cbv zeta.
  rewrite (v1_field_of_real sideMm Hx), (v1_field_of_real thMm HT) by lra.
  replace (PageV1.validDims _ _) with true; [reflexivity|].
  symmetry. unfold PageV1.validDims. simpl.
  apply andb_true_iff; split; apply Rltb_true; simpl; lra.
Qed.

Lemma v3_ok_of_valid pipeType unit od side width height thickness length :
  Spec.valid (PageV3.profile pipeType unit od side width height thickness)
  = true ->
  PageV3.ok (PageV3.result pipeType unit od side width height thickness length)
  = true.
Proof. intros Hv. rewrite v3_result_cases. cbv zeta. now rewrite Hv. Qed.


(** ** The shortcut formulas and the geometry *)

(** C5, amended.  In exact arithmetic the shortcut formulas of the square
    and of the rectangular tube are equal to the canonical values: for all
    real S, W, H and T, [4*T*(S-T)*7.85/1000] is
    [(S*S - (S-2T)*(S-2T)) * 1000 * 7.85e-6] and
    [2*T*((W+H)-2T)*7.85/1000] is
    [(W*H - (W-2T)*(H-2T)) * 1000 * 7.85e-6]; so every valid square or
    rectangular result of generation 3 is the canonical weight per metre of
    its profile, and the geometry code of generation 2 returns, per metre,
    the shortcut value of its square profile. *)
Theorem shortcuts_equal_the_geometry_without_rounding :
  (forall S T : R,
     PageV3.shortcut (Spec.Square (XR S) (XR T))
     = Spec.weightPerRunUnit (Spec.area (Spec.Square (XR S) (XR T))) Spec.meter)
  /\
  (forall W H T : R,
     PageV3.shortcut (Spec.Rectangle (XR W) (XR H) (XR T))
     = Spec.weightPerRunUnit
         (Spec.area (Spec.Rectangle (XR W) (XR H) (XR T))) Spec.meter)
  /\
  (forall pipeType unit od side width height thickness length,
     let p := PageV3.profile pipeType unit od side width height thickness in
     let r := PageV3.result pipeType unit od side width height thickness length in
     pipeType <> PageV3.round -> PageV3.ok r = true ->
     PageV3.wPerM r = Spec.weightPerRunUnit (Spec.area p) Spec.meter)
  /\
  (forall sideIn thMmSq sqLen,
     let r := PageV2.square sideIn thMmSq sqLen PageV2.m in
     PageV2.ok r = true ->
     PageV2.wPerUnit r = PageV3.shortcut (PageV2.squareProfile sideIn thMmSq)).
Proof.
  assert (Hsq : forall S T : R,
             PageV3.shortcut (Spec.Square (XR S) (XR T))
             = Spec.weightPerRunUnit
                 (Spec.area (Spec.Square (XR S) (XR T))) Spec.meter).
  { intros S T.
    rewrite shortcut_square_R, area_square_R, weightPerRunUnit_R.
    f_equal. unfold runLengthMm. simpl. field. }
  assert (Hre : forall W H T : R,
             PageV3.shortcut (Spec.Rectangle (XR W) (XR H) (XR T))
             = Spec.weightPerRunUnit
                 (Spec.area (Spec.Rectangle (XR W) (XR H) (XR T))) Spec.meter).
  { intros W H T.
    rewrite shortcut_rectangle_R, area_rectangle_R, weightPerRunUnit_R.
    f_equal. unfold runLengthMm. simpl. field. }
  repeat apply conj; trivial; cbv zeta.
  - intros * Hshape Hok. apply v3_valid_weight in Hok. destruct Hok as [Hv ->].
    apply v3_valid_profile_is_real in Hv.
    destruct Hv as [(OD & T & Hp & _)
                   |[(S & T & -> & _)|(W & H & T & -> & _)]].
    + destruct pipeType; (contradiction || discriminate).
    + apply Hsq.
    + apply Hre.
  - intros * Hok. apply v2_square_valid_weight in Hok.
    destruct Hok as (x & T & -> & _ & _ & _ & ->). symmetry. apply Hsq.
Qed.

(** C5 amended, at the rectangular tube of 40 mm by 20 mm by 2 mm and at the
    square tube of 2 inch by 2 mm *)
Lemma shortcuts_equal_the_geometry_without_rounding_witness :
  PageV3.wPerM (PageV3.result PageV3.rectangle PageV3.mm_
                  "" "" "40" "20" "2" "")
  = Spec.weightPerRunUnit
      (Spec.area (PageV3.profile PageV3.rectangle PageV3.mm_
                    "" "" "40" "20" "2")) Spec.meter
  /\
  PageV2.wPerUnit (PageV2.square "2" "2" "" PageV2.m)
  = PageV3.shortcut (PageV2.squareProfile "2" "2").
Proof.
  destruct shortcuts_equal_the_geometry_without_rounding
    as (_ & _ & H3 & H2).
  split.
  - apply H3; [discriminate|]. apply v3_ok_of_valid.
    change (PageV3.profile PageV3.rectangle PageV3.mm_ "" "" "40" "20" "2")
      with (Spec.Rectangle (XR 40) (XR 20) (XR 2)).
    apply valid_rectangle_R. lra.
  - apply H2. apply (@v2_square_ok_of_real _ _ _ _ 2 2); (reflexivity || lra).
Defined.

(** ** Monotonicity of area and weight *)

(** area and shortcut weight grow with a growing real profile *)
Lemma grows_on_reals (p q : Spec.Profile) :
  Spec.grows p q ->
  (exists OD T, p = Spec.Round (XR OD) (XR T) /\ 0 < T /\ 2 * T < OD)
  \/ (exists S T, p = Spec.Square (XR S) (XR T) /\ 0 < T /\ 2 * T < S)
  \/ (exists W H T, p = Spec.Rectangle (XR W) (XR H) (XR T)
                    /\ 0 < T /\ 2 * T < W /\ 2 * T < H) ->
  (exists OD T, q = Spec.Round (XR OD) (XR T) /\ 0 < T /\ 2 * T < OD)
  \/ (exists S T, q = Spec.Square (XR S) (XR T) /\ 0 < T /\ 2 * T < S)
  \/ (exists W H T, q = Spec.Rectangle (XR W) (XR H) (XR T)
                    /\ 0 < T /\ 2 * T < W /\ 2 * T < H) ->
  (Spec.area p <? Spec.area q)%js = true /\
  (PageV3.shortcut p <? PageV3.shortcut q)%js = true.
Proof.
  intros Hg Hp Hq.
  destruct Hp as [(OD & T & -> & HT & Hb)
                 |[(S & T & -> & HT & Hb)|(W & H & T & -> & HT & Hw & Hh)]];
  destruct Hq as [(OD' & T' & -> & HT' & Hb')
                 |[(S' & T' & -> & HT' & Hb')
                  |(W' & H' & T' & -> & HT' & Hw' & Hh')]];
  inversion Hg; subst;
  match goal with
  | Hlt : (_ <? _)%js = true |- _ => apply Rltb_true in Hlt
  end.
  - rewrite !area_round_R, !shortcut_round_R. simpl.
    split; apply Rltb_true.
    + apply Rmult_lt_compat_l;
        [apply quarter_pi_positive | now apply ring_area_increasing].
    + nra.
  - rewrite !area_square_R, !shortcut_square_R. simpl.
    split; apply Rltb_true.
    + now apply ring_area_increasing.
    + assert (T' * (S - T') < T' * (S' - T')) by nra. lra.
  - rewrite !area_rectangle_R, !shortcut_rectangle_R. simpl.
    split; apply Rltb_true.
    + now apply box_area_increasing.
    + assert (T' * ((W + H') - 2 * T') < T' * ((W' + H') - 2 * T')) by nra.
      lra.
  - rewrite !area_rectangle_R, !shortcut_rectangle_R. simpl.
    split; apply Rltb_true.
    + now apply box_area_increasing_height.
    + assert (T' * ((W' + H) - 2 * T') < T' * ((W' + H') - 2 * T')) by nra.
      lra.
Qed.

(** C9, amended.  In exact arithmetic, for every shape and generation: when
    one outer dimension is strictly increased at the same thickness and both
    results are valid, the metal area and the weight per unit strictly
    increase. *)
Theorem area_and_weight_increase_without_rounding :
  (forall pipeType unit thickness od side width height length
          od' side' width' height' length',
     let p := PageV3.profile pipeType unit od side width height thickness in
     let p' := PageV3.profile pipeType unit od' side' width' height' thickness in
     let r := PageV3.result pipeType unit od side width height thickness length in
     let r' := PageV3.result pipeType unit od' side' width' height' thickness
                 length' in
     Spec.grows p p' -> PageV3.ok r = true -> PageV3.ok r' = true ->
     (Spec.area p <? Spec.area p')%js = true /\
     (PageV3.wPerM r <? PageV3.wPerM r')%js = true)
  /\
  (forall thMmRound roundLenUnit odIn roundLen odIn' roundLen',
     let r := PageV2.round odIn thMmRound roundLen roundLenUnit in
     let r' := PageV2.round odIn' thMmRound roundLen' roundLenUnit in
     Spec.grows (PageV2.roundProfile odIn thMmRound)
                (PageV2.roundProfile odIn' thMmRound) ->
     PageV2.ok r = true -> PageV2.ok r' = true ->
     (PageV2.areaRoundMm2 (PageV2.outerMm odIn) (PageV2.field thMmRound)
      <? PageV2.areaRoundMm2 (PageV2.outerMm odIn') (PageV2.field thMmRound))%js
     = true /\
     (PageV2.wPerUnit r <? PageV2.wPerUnit r')%js = true)
  /\
  (forall thMmSq sqLenUnit sideIn sqLen sideIn' sqLen',
     let r := PageV2.square sideIn thMmSq sqLen sqLenUnit in
     let r' := PageV2.square sideIn' thMmSq sqLen' sqLenUnit in
     Spec.grows (PageV2.squareProfile sideIn thMmSq)
                (PageV2.squareProfile sideIn' thMmSq) ->
     PageV2.ok r = true -> PageV2.ok r' = true ->
     (PageV2.areaSquareTubeMm2 (PageV2.outerMm sideIn) (PageV2.field thMmSq)
      <? PageV2.areaSquareTubeMm2 (PageV2.outerMm sideIn')
           (PageV2.field thMmSq))%js = true /\
     (PageV2.wPerUnit r <? PageV2.wPerUnit r')%js = true)
  /\
  (forall thIn roundLenUnit odIn roundLen odIn' roundLen',
     let r := PageV1.round odIn thIn roundLen roundLenUnit in
     let r' := PageV1.round odIn' thIn roundLen' roundLenUnit in
     (PageV1.field odIn <? PageV1.field odIn')%js = true ->
     PageV1.ok r = true -> PageV1.ok r' = true ->
     (PageV1.wPerUnit r <? PageV1.wPerUnit r')%js = true)
  /\
  (forall thMm sideMm sqLenM sideMm' sqLenM',
     let r := PageV1.square sideMm thMm sqLenM in
     let r' := PageV1.square sideMm' thMm sqLenM' in
     (PageV1.field sideMm <? PageV1.field sideMm')%js = true ->
     PageV1.ok r = true -> PageV1.ok r' = true ->
     (PageV1.wPerUnit r <? PageV1.wPerUnit r')%js = true).
Proof.
  repeat apply conj; cbv zeta; intros * Hg Hok Hok'.
  - apply v3_valid_weight in Hok, Hok'.
    destruct Hok as [Hv ->], Hok' as [Hv' ->].
    apply v3_valid_profile_is_real in Hv, Hv'.
    now apply grows_on_reals.
  - apply v2_round_valid_weight in Hok, Hok'.
    destruct Hok as (x & T & Hp & _ & HT & Hb & ->).
    destruct Hok' as (x' & T' & Hp' & _ & HT' & Hb' & ->).
    pose proof Hp as Hd. pose proof Hp' as Hd'.
    unfold PageV2.roundProfile in Hd, Hd'.
    injection Hd as -> ->. injection Hd' as -> HTT.
    rewrite Hp, Hp' in *. clear Hp Hp'.
    inversion Hg as [a b c Hlt| | |]; subst. apply Rltb_true in Hlt.
    rewrite !areaRoundMm2_R by assumption.
    rewrite !area_round_R, !weightPerRunUnit_R. simpl.
    assert (PI / 4 * (x * (254 / 10) * (x * (254 / 10))
                      - (x * (254 / 10) - 2 * T') * (x * (254 / 10) - 2 * T'))
            < PI / 4 * (x' * (254 / 10) * (x' * (254 / 10))
                      - (x' * (254 / 10) - 2 * T')
                        * (x' * (254 / 10) - 2 * T'))) as Harea
        by (apply Rmult_lt_compat_l;
            [apply quarter_pi_positive | now apply ring_area_increasing]).
    split; apply Rltb_true; [exact Harea | now apply weight_increasing].
  - apply v2_square_valid_weight in Hok, Hok'.
    destruct Hok as (x & T & Hp & _ & HT & Hb & ->).
    destruct Hok' as (x' & T' & Hp' & _ & HT' & Hb' & ->).
    pose proof Hp as Hd. pose proof Hp' as Hd'.
    unfold PageV2.squareProfile in Hd, Hd'.
    injection Hd as -> ->. injection Hd' as -> HTT.
    rewrite Hp, Hp' in *. clear Hp Hp'.
    inversion Hg as [|a b c Hlt| |]; subst. apply Rltb_true in Hlt.
    rewrite !areaSquareTubeMm2_R by assumption.
    rewrite !area_square_R, !weightPerRunUnit_R. simpl.
    assert (x * (254 / 10) * (x * (254 / 10))
            - (x * (254 / 10) - 2 * T') * (x * (254 / 10) - 2 * T')
            < x' * (254 / 10) * (x' * (254 / 10))
              - (x' * (254 / 10) - 2 * T') * (x' * (254 / 10) - 2 * T'))
      as Harea by (now apply ring_area_increasing).
    split; apply Rltb_true; [exact Harea | now apply weight_increasing].
  - apply v1_round_valid_weight in Hok, Hok'.
    destruct Hok as (x & T & Hx & HT & HT0 & Hlt & ->).
    destruct Hok' as (x' & T' & Hx' & HT' & HT0' & Hlt' & ->).
    rewrite Hx, Hx' in Hg. rewrite HT in HT'. injection HT' as <-.
    apply Rltb_true in Hg. apply Rltb_true.
    apply Rmult_lt_compat_r; [lra|].
    apply Rmult_lt_compat_l; [destruct roundLenUnit|]; lra.
  - apply v1_square_valid_weight in Hok, Hok'.
    destruct Hok as (x & T & Hx & HT & HT0 & Hlt & ->).
    destruct Hok' as (x' & T' & Hx' & HT' & HT0' & Hlt' & ->).
    rewrite Hx, Hx' in Hg. rewrite HT in HT'. injection HT' as <-.
    apply Rltb_true in Hg. rewrite !shortcut_square_R. apply Rltb_true.
    assert (T * (x - T) < T * (x' - T)) by nra. lra.
Qed.

(** C9 amended, at tubes of wall 2 whose outer dimension goes from 50 to 60
    (generations 3 and 1, millimetres) and from 2 to 3 inches (generations 2
    and 1) *)
Lemma area_and_weight_increase_without_rounding_witness :
  (PageV3.wPerM (PageV3.result PageV3.round PageV3.mm_ "50" "" "" "" "2" "")
   <? PageV3.wPerM (PageV3.result PageV3.round PageV3.mm_ "60" "" "" "" "2" ""))%js
  = true /\
  (PageV2.wPerUnit (PageV2.round "2" "2" "" PageV2.m)
   <? PageV2.wPerUnit (PageV2.round "3" "2" "" PageV2.m))%js = true /\
  (PageV2.wPerUnit (PageV2.square "2" "2" "" PageV2.m)
   <? PageV2.wPerUnit (PageV2.square "3" "2" "" PageV2.m))%js = true /\
  (PageV1.wPerUnit (PageV1.round "2" "0.1" "" PageV1.ft)
   <? PageV1.wPerUnit (PageV1.round "3" "0.1" "" PageV1.ft))%js = true /\
  (PageV1.wPerUnit (PageV1.square "50" "2" "")
   <? PageV1.wPerUnit (PageV1.square "60" "2" ""))%js = true.
Proof.
  destruct area_and_weight_increase_without_rounding
    as (H3 & H2r & H2s & H1r & H1s).
  repeat apply conj.
  - apply H3.
    + change (PageV3.profile PageV3.round PageV3.mm_ "50" "" "" "" "2")
        with (Spec.Round (XR 50) (XR 2)).
      change (PageV3.profile PageV3.round PageV3.mm_ "60" "" "" "" "2")
        with (Spec.Round (XR 60) (XR 2)).
      constructor. apply Rltb_true. lra.
    + apply v3_ok_of_valid.
      change (PageV3.profile PageV3.round PageV3.mm_ "50" "" "" "" "2")
        with (Spec.Round (XR 50) (XR 2)).
      apply valid_round_R. lra.
    + apply v3_ok_of_valid.
      change (PageV3.profile PageV3.round PageV3.mm_ "60" "" "" "" "2")
        with (Spec.Round (XR 60) (XR 2)).
      apply valid_round_R. lra.
  - apply H2r.
    + unfold PageV2.roundProfile, PageV2.outerMm.
      rewrite (@v2_field_of_real "2" 2), (@v2_field_of_real "3" 3)
        by (reflexivity || lra).
      change (isFinite (XR 2)) with true. change (isFinite (XR 3)) with true.
      cbv iota.
      change (PageV2.inchesToMm (XR 2)) with (XR (2 * (254 / 10))).
      change (PageV2.inchesToMm (XR 3)) with (XR (3 * (254 / 10))).
      constructor. apply Rltb_true. lra.
    + apply (@v2_round_ok_of_real _ _ _ _ 2 2); (reflexivity || lra).
    + apply (@v2_round_ok_of_real _ _ _ _ 3 2); (reflexivity || lra).
  - apply H2s.
    + unfold PageV2.squareProfile, PageV2.outerMm.
      rewrite (@v2_field_of_real "2" 2), (@v2_field_of_real "3" 3)
        by (reflexivity || lra).
      change (isFinite (XR 2)) with true. change (isFinite (XR 3)) with true.
      cbv iota.
      change (PageV2.inchesToMm (XR 2)) with (XR (2 * (254 / 10))).
      change (PageV2.inchesToMm (XR 3)) with (XR (3 * (254 / 10))).
      constructor. apply Rltb_true. lra.
    + apply (@v2_square_ok_of_real _ _ _ _ 2 2); (reflexivity || lra).
    + apply (@v2_square_ok_of_real _ _ _ _ 3 2); (reflexivity || lra).
  - apply H1r.
    + rewrite (@v1_field_of_real "2" 2), (@v1_field_of_real "3" 3)
        by (reflexivity || lra).
      apply Rltb_true. lra.
    + apply (@v1_round_ok_of_real _ _ _ _ 2 (1 / 10)); (reflexivity || lra).
    + apply (@v1_round_ok_of_real _ _ _ _ 3 (1 / 10)); (reflexivity || lra).
  - apply H1s.
    + rewrite (@v1_field_of_real "50" 50), (@v1_field_of_real "60" 60)
        by (reflexivity || lra).
      apply Rltb_true. lra.
    + apply (@v1_square_ok_of_real _ _ _ 50 2); (reflexivity || lra).
    + apply (@v1_square_ok_of_real _ _ _ 60 2); (reflexivity || lra).
Defined.

(** ** The weight of the round tube *)




(** ** Run units, without rounding *)



End ExactArithmetic.

(** * The text of a number *)

Section NumberToStringFacts.
Import NumberToString StringToNumber.

Lemma isDecimalDigit_digitValue (c : ascii) :
  isDecimalDigit c = true ->
  digitValue 10 c = Some (N_of_ascii c - 48)%N.
Proof.
  unfold isDecimalDigit, digitValue. intros H. cbv zeta. rewrite H.
  apply andb_prop in H. destruct H as [H1 H2].
  apply N.leb_le in H1. apply N.leb_le in H2.
  replace (N_of_ascii c - 48 <? 10)%N with true; [reflexivity|].
  symmetry. apply N.ltb_lt. lia.
Qed.

Lemma digitChar_code (d : N) :
  (d < 10)%N -> N_of_ascii (digitChar d) = (48 + d)%N.
Proof.
  intros H. unfold digitChar. apply N_ascii_embedding. lia.
Qed.

Lemma digitChar_isDecimalDigit (d : N) :
  (d < 10)%N -> isDecimalDigit (digitChar d) = true.
Proof.
  intros H. unfold isDecimalDigit. rewrite (digitChar_code H).
  apply andb_true_intro. split; apply N.leb_le; lia.
Qed.

Lemma digits_of_decimal_digits (l rest : list ascii) (acc : N) (cnt : nat) :
  Forall (fun c => isDecimalDigit c = true) l ->
  match rest with c :: _ => digitValue 10 c = None | [] => True end ->
  digits 10 acc cnt (l ++ rest) =
  (digitsValue acc l, (cnt + List.length l)%nat, rest).
Proof.
  intros Hl Hrest. revert acc cnt.
  induction Hl as [|c l Hc Hl IH]; intros acc cnt.
  - cbn [app List.length digitsValue fold_left]. rewrite Nat.add_0_r.
    destruct rest as [|c r]; [reflexivity|].
    cbn [digits]. rewrite Hrest. reflexivity.
  - cbn [app digits]. rewrite (isDecimalDigit_digitValue _ Hc).
    rewrite IH. cbn [List.length]. unfold digitsValue. cbn [fold_left].
    f_equal. f_equal. lia.
Qed.

Lemma digitsValue_app (l1 l2 : list ascii) (acc : N) :
  digitsValue acc (l1 ++ l2) = digitsValue (digitsValue acc l1) l2.
Proof. unfold digitsValue. apply fold_left_app. Qed.

Lemma digitsValue_zeros (j : nat) :
  digitsValue 0 (repeat "0"%char j) = 0%N.
Proof.
  induction j as [|j IH]; [reflexivity|].
  cbn [repeat]. unfold digitsValue in *. cbn [fold_left]. exact IH.
Qed.

Lemma decimalDigitsFrom_S (fuel : nat) (n : N) (acc : list ascii) :
  decimalDigitsFrom (S fuel) n acc =
  if (n / 10 =? 0)%N then digitChar (n mod 10) :: acc
  else decimalDigitsFrom fuel (n / 10) (digitChar (n mod 10) :: acc).
Proof. reflexivity. Qed.

Lemma decimalDigitsFrom_value (g : nat) :
  forall (n : N) (acc : list ascii),
  (n < 2 ^ N.of_nat g)%N ->
  digitsValue 0 (decimalDigitsFrom (S g) n acc) = digitsValue n acc.
Proof.
  induction g as [|g IH]; intros n acc Hn.
  - assert (n = 0%N) by (cbn in Hn; lia). subst n. reflexivity.
  - rewrite decimalDigitsFrom_S.
    assert (Hmod : (n mod 10 < 10)%N) by (apply N.mod_lt; lia).
    assert (Hdm : n = (10 * (n / 10) + n mod 10)%N) by (apply N.div_mod; lia).
    destruct (n / 10 =? 0)%N eqn:Hq.
    + apply N.eqb_eq in Hq. unfold digitsValue. cbn [fold_left].
      rewrite (digitChar_code Hmod). f_equal.
      rewrite Hq in Hdm. clear Hn Hq. lia.
    + apply N.eqb_neq in Hq. rewrite IH.
      * unfold digitsValue. cbn [fold_left].
        rewrite (digitChar_code Hmod). f_equal.
        set (q := (n / 10)%N) in *. set (r := (n mod 10)%N) in *.
        clear Hn Hq. lia.
      * rewrite Nat2N.inj_succ, N.pow_succ_r' in Hn.
        set (q := (n / 10)%N) in *. set (r := (n mod 10)%N) in *.
        set (p := (2 ^ N.of_nat g)%N) in *. lia.
Qed.

Lemma decimalDigitsFrom_digits (fuel : nat) :
  forall (n : N) (acc : list ascii),
  Forall (fun c => isDecimalDigit c = true) acc ->
  Forall (fun c => isDecimalDigit c = true) (decimalDigitsFrom fuel n acc).
Proof.
  induction fuel as [|fuel IH]; intros n acc Hacc; [exact Hacc|].
  rewrite decimalDigitsFrom_S.
  assert (Hmod : (n mod 10 < 10)%N) by (apply N.mod_lt; lia).
  destruct (n / 10 =? 0)%N.
  - constructor; [apply (digitChar_isDecimalDigit Hmod)|exact Hacc].
  - apply IH. constructor; [apply (digitChar_isDecimalDigit Hmod)|exact Hacc].
Qed.

Lemma decimalDigitsFrom_nonempty (fuel : nat) (n : N) (acc : list ascii) :
  decimalDigitsFrom (S fuel) n acc <> [].
Proof.
  revert n acc. induction fuel as [|fuel IH]; intros n acc.
  - cbn. destruct (n / 10 =? 0)%N; discriminate.
  - rewrite decimalDigitsFrom_S. destruct (n / 10 =? 0)%N; [discriminate|].
    apply IH.
Qed.

Lemma size_nat_bound (n : N) : (n < 2 ^ N.of_nat (N.size_nat n))%N.
Proof.
  destruct n as [|p]; [cbn; lia|].
  cbn [N.size_nat].
  induction p as [p IH|p IH|].
  - cbn [Pos.size_nat]. rewrite Nat2N.inj_succ, N.pow_succ_r'. lia.
  - cbn [Pos.size_nat]. rewrite Nat2N.inj_succ, N.pow_succ_r'. lia.
  - cbn. lia.
Qed.

Lemma decimalDigits_value (n : N) : digitsValue 0 (decimalDigits n) = n.
Proof.
  unfold decimalDigits. rewrite decimalDigitsFrom_value.
  - reflexivity.
  - apply size_nat_bound.
Qed.

Lemma decimalDigits_digits (n : N) :
  Forall (fun c => isDecimalDigit c = true) (decimalDigits n).
Proof. apply decimalDigitsFrom_digits. constructor. Qed.

Lemma decimalDigits_nonempty (n : N) : decimalDigits n <> [].
Proof. apply decimalDigitsFrom_nonempty. Qed.

(** [n] written with [f] digits after the point: a nonempty integer
    part, the point, and [f] digits that together stand for [n] *)
Lemma fixedDigits_shape (f : nat) (n : N) :
  exists a b,
    fixedDigits (S f) n = a ++ "."%char :: b /\
    a <> [] /\ List.length b = S f /\
    Forall (fun c => isDecimalDigit c = true) a /\
    Forall (fun c => isDecimalDigit c = true) b /\
    digitsValue 0 (a ++ b) = n.
Proof.
  unfold fixedDigits.
  set (m0 := decimalDigits n).
  set (m := if Nat.leb (List.length m0) (S f)
            then repeat "0"%char (S f + 1 - List.length m0) ++ m0 else m0).
  cbv zeta.
  assert (Hdig : Forall (fun c => isDecimalDigit c = true) m).
  { subst m. destruct (Nat.leb (List.length m0) (S f)).
    - apply Forall_app. split.
      + apply Forall_forall. intros c Hc. apply repeat_spec in Hc.
        subst c. reflexivity.
      + apply decimalDigits_digits.
    - apply decimalDigits_digits. }
  assert (Hval : digitsValue 0 m = n).
  { subst m. destruct (Nat.leb (List.length m0) (S f)).
    - rewrite digitsValue_app, digitsValue_zeros. apply decimalDigits_value.
    - apply decimalDigits_value. }
  assert (Hlen : (S f < List.length m)%nat).
  { subst m. destruct (Nat.leb (List.length m0) (S f)) eqn:Hle.
    - apply Nat.leb_le in Hle. rewrite length_app, repeat_length. lia.
    - apply Nat.leb_gt in Hle. exact Hle. }
  pose proof Hdig as Hsplit.
  rewrite <- (firstn_skipn (List.length m - S f) m) in Hsplit.
  apply Forall_app in Hsplit. destruct Hsplit as [Hfirst Hskip].
  exists (firstn (List.length m - S f) m), (skipn (List.length m - S f) m).
  repeat apply conj.
  - reflexivity.
  - intros Ha. apply (f_equal (@List.length ascii)) in Ha.
    rewrite length_firstn in Ha. cbn in Ha. lia.
  - rewrite length_skipn. lia.
  - exact Hfirst.
  - exact Hskip.
  - rewrite firstn_skipn. exact Hval.
Qed.

Lemma trim_id (c z : ascii) (r r' : list ascii) :
  c :: r = r' ++ [z] ->
  isWhiteSpace c = false -> isWhiteSpace z = false ->
  trim (c :: r) = c :: r.
Proof.
  intros Heq Hc Hz. unfold trim. cbn [trimStart]. rewrite Hc.
  rewrite Heq, rev_app_distr. cbn [rev app trimStart]. rewrite Hz.
  cbn [rev]. rewrite rev_involutive. reflexivity.
Qed.

Lemma isDecimalDigit_cases (c : ascii) :
  isDecimalDigit c = true ->
  isWhiteSpace c = false /\ isChar c "-" "-" = false /\
  isChar c "+" "+" = false /\ isChar c "x" "X" = false /\
  isChar c "o" "O" = false /\ isChar c "b" "B" = false /\
  isChar c "." "." = false /\ c <> "I"%char.
Proof.
  intros H. unfold isDecimalDigit in H.
  apply andb_prop in H. destruct H as [H1 H2].
  apply N.leb_le in H1. apply N.leb_le in H2.
  assert (Hc : c = ascii_of_N (N_of_ascii c)) by (symmetry; apply ascii_N_embedding).
  assert (Hd : exists d, (d < 10)%N /\ N_of_ascii c = (48 + d)%N).
  { exists (N_of_ascii c - 48)%N. lia. }
  destruct Hd as [d [Hd Hcode]]. rewrite Hcode in Hc.
  assert (d = 0 \/ d = 1 \/ d = 2 \/ d = 3 \/ d = 4 \/ d = 5 \/ d = 6 \/
          d = 7 \/ d = 8 \/ d = 9)%N as Hcases by lia.
  repeat (destruct Hcases as [Hcases|Hcases]);
    subst d; subst c; repeat apply conj; try reflexivity; discriminate.
Qed.

Lemma strDecimal_fixed (neg : bool) (a b : list ascii) :
  a <> [] ->
  Forall (fun c => isDecimalDigit c = true) a ->
  Forall (fun c => isDecimalDigit c = true) b ->
  strDecimal neg (a ++ "."%char :: b) =
  LitDecimal neg (digitsValue 0 (a ++ b)) (- Z.of_nat (List.length b)).
Proof.
  intros Ha Hda Hdb. unfold strDecimal.
  destruct (list_eq_dec ascii_dec (a ++ "."%char :: b)
              (list_ascii_of_string "Infinity")) as [E|_].
  - destruct a as [|c a]; [contradiction|].
    destruct (isDecimalDigit_cases _ (Forall_inv Hda))
      as (_ & _ & _ & _ & _ & _ & _ & HI).
    cbn in E. injection E as E _. contradiction.
  - unfold unsignedDecimal.
    rewrite (digits_of_decimal_digits ("."%char :: b) 0 0 Hda);
      [|reflexivity].
    change (isChar "." "." ".") with true. cbv iota.
    rewrite <- (app_nil_r b) at 1.
    rewrite (digits_of_decimal_digits [] (digitsValue 0 a) 0 Hdb);
      [|exact I].
    destruct a as [|c a]; [contradiction|].
    cbn [List.length Nat.add exponentPart].
    rewrite digitsValue_app. f_equal.
Qed.

(** a decimal with digits on both sides of the point reads back as the
    number its digits stand for *)
Lemma parse_fixed (neg : bool) (a b : list ascii) :
  a <> [] ->
  Forall (fun c => isDecimalDigit c = true) a ->
  Forall (fun c => isDecimalDigit c = true) b ->
  parse (string_of_list_ascii
           ((if neg then ["-"%char] else []) ++ a ++ "."%char :: b)) =
  LitDecimal neg (digitsValue 0 (a ++ b)) (- Z.of_nat (List.length b)).
Proof.
  intros Ha Hda Hdb. unfold parse.
  rewrite list_ascii_of_string_of_list_ascii.
  rewrite <- (strDecimal_fixed neg Ha Hda Hdb).
  destruct a as [|c a]; [contradiction|].
  destruct (isDecimalDigit_cases _ (Forall_inv Hda))
    as (Hws & Hminus & Hplus & Hx & Ho & Hb & Hpoint & HI).
  assert (Hlast : exists r' z, (c :: a) ++ "."%char :: b = r' ++ [z] /\
                               isWhiteSpace z = false).
  { destruct b as [|b0 bt].
    - exists (c :: a), "."%char. split; reflexivity.
    - destruct (@exists_last _ (b0 :: bt)) as [l' [z Hz]]; [discriminate|].
      exists ((c :: a) ++ "."%char :: l'), z. split.
      + rewrite Hz, <- app_assoc. reflexivity.
      + rewrite Hz in Hdb. apply Forall_app in Hdb. destruct Hdb as [_ Hdz].
        apply (isDecimalDigit_cases _ (Forall_inv Hdz)). }
  destruct Hlast as (r' & z & Hsplit & Hz).
  destruct neg.
  - cbn [app] in *.
    rewrite (@trim_id "-"%char z (c :: a ++ "."%char :: b)
                      ("-"%char :: r')); [reflexivity| |reflexivity|exact Hz].
    rewrite Hsplit. reflexivity.
  - cbn [app] in *. rewrite (@trim_id _ _ _ _ Hsplit Hws Hz).
    rewrite Hminus, Hplus.
    destruct a as [|x a].
    + cbn [app]. change (isChar "." "x" "X") with false.
      change (isChar "." "o" "O") with false.
      change (isChar "." "b" "B") with false.
      rewrite !andb_false_r. reflexivity.
    + cbn [app].
      destruct (isDecimalDigit_cases _ (Forall_inv (Forall_inv_tail Hda)))
        as (_ & _ & _ & Hx' & Ho' & Hb' & _).
      rewrite Hx', Ho', Hb', !andb_false_r. reflexivity.
Qed.

End NumberToStringFacts.

Section ScaledRoundFacts.
Import NumberToString.
Local Open Scope R_scope.

Lemma IZR_pow2 (k : positive) :
  IZR (Z.of_N (2 ^ Npos k)) = 2 ^ Pos.to_nat k.
Proof.
  rewrite N2Z.inj_pow. cbn [Z.of_N].
  rewrite <- (positive_nat_Z k), <- pow_IZR. reflexivity.
Qed.

Lemma pow2_positive (n : nat) : 0 < 2 ^ n.
Proof. apply pow_lt. lra. Qed.

(** the integer [toFixed(2)] writes is within a half of a hundred times
    the magnitude *)
Lemma scaledRound_near (m : positive) (e : Z) :
  Rabs (IZR (Z.of_N (scaledRound 2 m e)) / 100 - IZR (Zpos m) * powerRZ 2 e)
  <= 1 / 200.
Proof.
  unfold scaledRound. cbv zeta.
  change (10 ^ N.of_nat 2)%N with 100%N.
  destruct e as [|p|k].
  - cbn [Z.to_N powerRZ]. rewrite N.pow_0_r, N.mul_1_r, N2Z.inj_mul.
    cbn [Z.of_N]. rewrite mult_IZR.
    replace (IZR (Z.pos m) * 100 / 100 - IZR (Z.pos m) * 1) with 0 by field.
    rewrite Rabs_R0. lra.
  - cbn [Z.to_N powerRZ]. rewrite !N2Z.inj_mul, !mult_IZR, IZR_pow2.
    cbn [Z.of_N].
    replace (IZR (Z.pos m) * 100 * 2 ^ Pos.to_nat p / 100 -
             IZR (Z.pos m) * 2 ^ Pos.to_nat p) with 0 by field.
    rewrite Rabs_R0. lra.
  - cbn [powerRZ].
    set (P := (2 ^ Npos k)%N).
    set (n := ((2 * (Npos m * 100) + P) / 2 ^ (Npos k + 1))%N).
    assert (HP : IZR (Z.of_N P) = 2 ^ Pos.to_nat k) by apply IZR_pow2.
    assert (Hpos : 0 < IZR (Z.of_N P)) by (rewrite HP; apply pow2_positive).
    assert (Hdm : (2 * P * n <= 2 * (Npos m * 100) + P /\
                   2 * (Npos m * 100) + P < 2 * P * n + 2 * P)%N).
    { subst n. rewrite N.pow_add_r, N.pow_1_r. fold P.
      pose proof (N.div_mod (2 * (Npos m * 100) + P) (P * 2)) as Hd.
      pose proof (N.mod_lt (2 * (Npos m * 100) + P) (P * 2)) as Hm.
      assert (P <> 0)%N by (subst P; apply N.pow_nonzero; discriminate).
      set (q := ((2 * (Npos m * 100) + P) / (P * 2))%N) in *.
      set (r := ((2 * (Npos m * 100) + P) mod (P * 2))%N) in *.
      nia. }
    destruct Hdm as [Hlo Hhi]. clearbody n. clearbody P.
    assert (HloZ : (2 * Z.of_N P * Z.of_N n <= 200 * Z.pos m + Z.of_N P)%Z)
      by lia.
    assert (HhiZ : (200 * Z.pos m + Z.of_N P <
                    2 * Z.of_N P * Z.of_N n + 2 * Z.of_N P)%Z) by lia.
    clear Hlo Hhi. apply IZR_le in HloZ. apply IZR_lt in HhiZ.
    repeat rewrite ?plus_IZR, ?mult_IZR in HloZ.
    repeat rewrite ?plus_IZR, ?mult_IZR in HhiZ.
    rewrite <- HP.
    set (p := IZR (Z.of_N P)) in *. set (nn := IZR (Z.of_N n)) in *.
    set (mm := IZR (Z.pos m)) in *.
    set (x := mm * / p).
    assert (Hx : mm = x * p) by (subst x; field; lra).
    rewrite Hx in HloZ, HhiZ.
    apply Rabs_le. split.
    + apply (Rmult_le_reg_l p); [exact Hpos|]. nra.
    + apply (Rmult_le_reg_l p); [exact Hpos|]. nra.
Qed.

Lemma atLeast1e21_real (m : positive) (e : Z) :
  atLeast1e21 m e = true -> 10 ^ 21 <= IZR (Zpos m) * powerRZ 2 e.
Proof.
  unfold atLeast1e21.
  assert (H21 : IZR (Z.of_N (10 ^ 21)) = 10 ^ 21).
  { rewrite N2Z.inj_pow. cbn [Z.of_N].
    change (Z.pos 21) with (Z.of_nat 21). rewrite <- pow_IZR. reflexivity. }
  destruct e as [|p|k]; intros H; apply N.leb_le in H;
    apply N2Z.inj_le, IZR_le in H; rewrite H21 in H || idtac.
  - cbn [Z.to_N powerRZ] in *. rewrite N.pow_0_r, N.mul_1_r in H.
    cbn [Z.of_N] in H. lra.
  - cbn [Z.to_N powerRZ] in *. rewrite N2Z.inj_mul, mult_IZR, IZR_pow2 in H.
    cbn [Z.of_N] in H. exact H.
  - cbn [powerRZ]. rewrite N2Z.inj_mul, mult_IZR, IZR_pow2, H21 in H.
    cbn [Z.of_N] in H.
    pose proof (pow2_positive (Pos.to_nat k)) as Hp.
    apply (Rmult_le_reg_r (2 ^ Pos.to_nat k)); [exact Hp|].
    replace (IZR (Z.pos m) * / 2 ^ Pos.to_nat k * 2 ^ Pos.to_nat k)
      with (IZR (Z.pos m)) by (field; lra).
    exact H.
Qed.

End ScaledRoundFacts.

(** * What the pages show *)

Section DisplayFacts.
Local Existing Instance Float64.number.
Local Existing Instance Float64_laws.
Local Open Scope string_scope.
Local Open Scope js_scope.
Import NumberToString.

Lemma v3_fmt_is_fmt (x : Float64.t) : FormV3.fmt x = fmt x.
Proof. destruct x; reflexivity. Qed.

Lemma digits_are_numeric (l : list ascii) :
  Forall (fun c => isDecimalDigit c = true) l ->
  Forall (fun c => numericChar c = true) l.
Proof.
  apply Forall_impl. intros c Hc. unfold numericChar. rewrite Hc. reflexivity.
Qed.

Lemma fixedDigits_numeric (n : N) :
  Forall (fun c => numericChar c = true) (fixedDigits 2 n).
Proof.
  destruct (fixedDigits_shape 1 n) as (a & b & Heq & _ & _ & Ha & Hb & _).
  rewrite Heq. apply Forall_app. split; [apply digits_are_numeric, Ha|].
  constructor; [reflexivity|apply digits_are_numeric, Hb].
Qed.

Lemma toStringLarge_numeric (m : positive) (e : Z) :
  Forall (fun c => numericChar c = true) (toStringLarge m e).
Proof.
  unfold toStringLarge. cbv zeta.
  destruct (shortest _ _ _ _ _) as [s n].
  assert (Hexp : Forall (fun c => numericChar c = true)
                   ("e"%char :: "+"%char :: decimalDigits (N.of_nat (n - 1)))).
  { constructor; [reflexivity|]. constructor; [reflexivity|].
    apply digits_are_numeric, decimalDigits_digits. }
  pose proof (digits_are_numeric (decimalDigits_digits s)) as Hs.
  destruct (decimalDigits s) as [|d [|d' r]].
  - exact Hexp.
  - apply Forall_app. split; [exact Hs|exact Hexp].
  - constructor; [exact (Forall_inv Hs)|].
    constructor; [reflexivity|].
    apply Forall_app. split; [exact (Forall_inv_tail Hs)|exact Hexp].
Qed.

Lemma toFixed_numeric (x : Float64.t) :
  Float64.finite x = true ->
  Forall (fun c => numericChar c = true) (list_ascii_of_string (toFixed 2 x)).
Proof.
  destruct x as [s| | |s m e]; try discriminate; intros _.
  - vm_compute. repeat constructor.
  - unfold toFixed. rewrite list_ascii_of_string_of_list_ascii.
    apply Forall_app. split.
    + destruct s; repeat constructor.
    + destruct (atLeast1e21 m e);
        [apply toStringLarge_numeric|apply fixedDigits_numeric].
Qed.

(** X2: [fmt] gives the dash for NaN and the two infinities and for
    nothing else; the text of any other number consists of digits, the
    sign, the point and the [e+] of an exponent, so that neither [NaN] nor
    [Infinity] is ever shown; [fmt] of [src/unnamed/part_000] is the same
    function. *)
Theorem fmt_is_the_dash_or_a_numeral (x : Float64.t) :
  FormV3.fmt x = fmt x /\
  ((isFinite x = false /\ fmt x = "—") \/
   (isFinite x = true /\ fmt x <> "—" /\
    Forall (fun c => numericChar c = true) (list_ascii_of_string (fmt x)))).
Proof.
  split; [apply v3_fmt_is_fmt|].
  change (isFinite x) with (Float64.finite x). unfold fmt.
  destruct (Float64.finite x) eqn:Hfin; [right|left].
  - cbn [negb]. pose proof (toFixed_numeric x Hfin) as Hnum.
    repeat apply conj; [reflexivity| |exact Hnum].
    intros Hdash. rewrite Hdash in Hnum.
    apply Forall_inv in Hnum. vm_compute in Hnum. discriminate.
  - split; reflexivity.
Qed.

Lemma Number_fixed (neg : bool) (n : N) :
  Number (string_of_list_ascii
            ((if neg then ["-"%char] else []) ++ fixedDigits 2 n)%list) =
  Float64.ofDecimal neg n (-2).
Proof.
  destruct (fixedDigits_shape 1 n) as (a & b & Heq & Hne & Hlen & Ha & Hb & Hv).
  unfold Number. rewrite Heq, (parse_fixed neg Hne Ha Hb).
  rewrite Hv, Hlen. reflexivity.
Qed.

(** X1: a finite number below 10^21 in magnitude is shown, by [fmt] of
    either source file, as a decimal with two digits after the point; read
    back with [Number], the text is the decimal [n / 100] with the sign of
    the number, where [n / 100] is within 0.005 of the magnitude. *)
Theorem shown_number_reads_back (x : Float64.t) :
  isFinite x = true ->
  (Rabs (realValue x) < 10 ^ 21)%R ->
  exists n : N,
    Number (fmt x) = decimal (x <? lit 0 0) n (-2) /\
    Number (FormV3.fmt x) = decimal (x <? lit 0 0) n (-2) /\
    (Rabs (IZR (Z.of_N n) / 100 - Rabs (realValue x)) <= 1 / 200)%R.
Proof.
  rewrite v3_fmt_is_fmt.
  destruct x as [s| | |s m e]; try discriminate; intros _ Hsmall.
  - exists 0%N. repeat apply conj.
    + destruct s; vm_compute; reflexivity.
    + destruct s; vm_compute; reflexivity.
    + cbn [realValue Z.of_N]. rewrite Rabs_R0.
      replace (0 / 100 - 0)%R with 0%R by field.
      rewrite Rabs_R0. lra.
  - assert (Hpos : (0 <= IZR (Z.pos m) * powerRZ 2 e)%R).
    { apply Rmult_le_pos; [apply IZR_le; lia|].
      apply Rlt_le, powerRZ_lt. lra. }
    assert (Habs : Rabs (realValue (S754_finite s m e)) =
                   (IZR (Z.pos m) * powerRZ 2 e)%R).
    { cbn [realValue]. destruct s.
      - rewrite Rabs_Ropp. apply Rabs_pos_eq, Hpos.
      - apply Rabs_pos_eq, Hpos. }
    rewrite Habs in *.
    assert (Hbelow : atLeast1e21 m e = false).
    { destruct (atLeast1e21 m e) eqn:H21; [|reflexivity].
      apply atLeast1e21_real in H21. lra. }
    assert (Hread : Number (fmt (S754_finite s m e)) =
                    decimal (S754_finite s m e <? lit 0 0)
                            (scaledRound 2 m e) (-2)).
    { unfold fmt. cbn [Float64.finite negb toFixed]. rewrite Hbelow.
      rewrite Number_fixed. destruct s; reflexivity. }
    exists (scaledRound 2 m e). repeat apply conj.
    + exact Hread.
    + exact Hread.
    + apply scaledRound_near.
Qed.

Lemma shown_number_reads_back_witness :
  exists n : N,
    Number (fmt (lit 1005 (-3))) =
    decimal (lit 1005 (-3) <? lit 0 0) n (-2) /\
    Number (FormV3.fmt (lit 1005 (-3))) =
    decimal (lit 1005 (-3) <? lit 0 0) n (-2) /\
    (Rabs (IZR (Z.of_N n) / 100 - Rabs (realValue (lit 1005 (-3))))
     <= 1 / 200)%R.
Proof.
  apply (shown_number_reads_back (lit 1005 (-3))).
  - vm_compute. reflexivity.
  - replace (lit 1005 (-3) : Float64.t)
      with (S754_finite false 4526117625507348 (-52))
      by (vm_compute; reflexivity).
    cbn [realValue powerRZ]. rewrite Rabs_pos_eq; simpl; lra.
Defined.

End DisplayFacts.

(** * The forms *)

Section FormFacts.
Local Existing Instance Float64.number.
Local Existing Instance Float64_laws.
Local Open Scope string_scope.
Local Open Scope js_scope.

Lemma v1_step_keeps_blank (st : PageV1.State) (ev : FormV1.Event) :
  FormV1.otherFormBlank st -> FormV1.otherFormBlank (FormV1.step st ev).
Proof.
  destruct st as [[] ? ? ? ? ? ? ?], ev as [|[]| | | | | | |];
    cbn; intuition congruence.
Qed.

Lemma v2_step_keeps_blank (st : PageV2.State) (ev : FormV2.Event) :
  FormV2.otherFormBlank st -> FormV2.otherFormBlank (FormV2.step st ev).
Proof.
  destruct st as [[] ? ? ? ? ? ? ? ?], ev as [|[]| | | | | | | |];
    cbn; intuition congruence.
Qed.

Lemma fold_left_invariant {St Ev : Type} (step : St -> Ev -> St)
      (P : St -> Prop) :
  (forall st ev, P st -> P (step st ev)) ->
  forall evs st, P st -> P (fold_left step evs st).
Proof.
  intros Hstep evs. induction evs as [|ev evs IH]; intros st Hst.
  - exact Hst.
  - cbn [fold_left]. apply IH, Hstep, Hst.
Qed.

Lemma v1_run_blank (evs : list FormV1.Event) :
  FormV1.otherFormBlank (FormV1.run evs).
Proof.
  unfold FormV1.run.
  apply fold_left_invariant; [apply v1_step_keeps_blank|].
  cbn. repeat split.
Qed.

Lemma v2_run_blank (evs : list FormV2.Event) :
  FormV2.otherFormBlank (FormV2.run evs).
Proof.
  unfold FormV2.run.
  apply fold_left_invariant; [apply v2_step_keeps_blank|].
  cbn. repeat split.
Qed.

(** X3: in both generations of [src/app/page.tsx], whatever the user
    does, the fields of the form that is not rendered are empty and its
    length unit is the default one. *)
Theorem hidden_form_is_blank :
  (forall evs, FormV1.otherFormBlank (FormV1.run evs)) /\
  (forall evs, FormV2.otherFormBlank (FormV2.run evs)).
Proof.
  split; intros evs.
  - unfold FormV1.run.
    apply fold_left_invariant; [apply v1_step_keeps_blank|].
    cbn. repeat split.
  - unfold FormV2.run.
    apply fold_left_invariant; [apply v2_step_keeps_blank|].
    cbn. repeat split.
Qed.

(** X4: in both generations of [src/app/page.tsx], the Reset button
    gives the initial state from any state, and pressing the button of the
    other pipe type gives a form with every field empty and both length
    units at their defaults: what was typed for the first type is lost. *)
Theorem reset_and_switch_blank_the_form :
  (forall st, FormV1.step st FormV1.ClickReset = FormV1.initial) /\
  (forall evs p,
     PageV1.pipeType (FormV1.run evs) <> p ->
     FormV1.step (FormV1.run evs) (FormV1.ClickType p) = FormV1.blank p) /\
  (forall st, FormV2.step st FormV2.ClickReset = FormV2.initial) /\
  (forall evs p,
     PageV2.pipeType (FormV2.run evs) <> p ->
     FormV2.step (FormV2.run evs) (FormV2.ClickType p) = FormV2.blank p).
Proof.
  repeat apply conj.
  - intros [[] ? ? ? ? ? ? ?]; reflexivity.
  - intros evs p Hp. pose proof (v1_run_blank evs) as H1.
    destruct (FormV1.run evs) as [[] ? ? ? ? ? ? ?], p;
      try contradiction; cbn in H1 |- *;
      decompose [and] H1; subst; reflexivity.
  - intros [[] ? ? ? ? ? ? ? ?]; reflexivity.
  - intros evs p Hp. pose proof (v2_run_blank evs) as H2.
    destruct (FormV2.run evs) as [[] ? ? ? ? ? ? ? ?], p;
      try contradiction; cbn in H2 |- *;
      decompose [and] H2; subst; reflexivity.
Qed.

End FormFacts.

(** * The result card *)

Section CardFacts.
Local Existing Instance Float64.number.
Local Existing Instance Float64_laws.
Local Open Scope string_scope.
Local Open Scope js_scope.

Lemma v1_active_cases (st : PageV1.State) :
  (PageV1.ok (PageV1.active st) = false /\
   PageV1.wPerUnit (PageV1.active st) = NaN /\
   PageV1.total (PageV1.active st) = NaN) \/
  (PageV1.ok (PageV1.active st) = true /\
   PageV1.note (PageV1.active st) =
   match PageV1.pipeType st with
   | PageV1.Round =>
       "Approx. steel weight based on a common industry formula."
   | PageV1.Square => "Approx. steel weight (7.85 density factor)."
   end).
Proof.
  unfold PageV1.active. destruct (PageV1.pipeType st).
  - rewrite v1_round_cases. cbv zeta.
    destruct (PageV1.validDims _ _); [right|left]; repeat split.
  - rewrite v1_square_cases. cbv zeta.
    destruct (PageV1.validDims _ _); [right|left]; repeat split.
Qed.

Lemma v2_active_cases (st : PageV2.State) :
  (PageV2.ok (PageV2.active st) = false /\
   PageV2.wPerUnit (PageV2.active st) = NaN /\
   PageV2.total (PageV2.active st) = NaN) \/
  (PageV2.ok (PageV2.active st) = true /\
   PageV2.note (PageV2.active st) =
   "Calculated using geometry + steel density (7850 kg/m³).").
Proof.
  unfold PageV2.active. destruct (PageV2.pipeType st).
  - rewrite v2_round_cases. cbv zeta.
    destruct (_ && _ && _); [right|left]; repeat split.
  - rewrite v2_square_cases. cbv zeta.
    destruct (_ && _ && _); [right|left]; repeat split.
Qed.

(** X5: the result card of [src/app/page.tsx], in both generations.
    When the active result is invalid the card shows the dash for both
    weights, the prompt to fill the fields, and the tip; the note of an
    invalid result is never shown.  Otherwise the tip is hidden and the
    note is the one of a valid result. *)
Theorem card_of_each_state :
  (forall st : PageV1.State,
     let c := FormV1.card st in
     (tipShown c = true /\
      noteText c = "Fill required fields to calculate." /\
      weightValue c = "— " ++ PageV1.unitLabel (PageV1.active st) /\
      totalValue c = "—") \/
     (tipShown c = false /\
      noteText c =
      match PageV1.pipeType st with
      | PageV1.Round =>
          "Approx. steel weight based on a common industry formula."
      | PageV1.Square => "Approx. steel weight (7.85 density factor)."
      end)) /\
  (forall st : PageV2.State,
     let c := FormV2.card st in
     (tipShown c = true /\
      noteText c = "Fill required fields to calculate." /\
      weightValue c = "— " ++ PageV2.unitLabel (PageV2.active st) /\
      totalValue c = "—") \/
     (tipShown c = false /\
      noteText c =
      "Calculated using geometry + steel density (7850 kg/m³).")).
Proof.
  split; intros st; cbv zeta.
  - unfold FormV1.card. cbv zeta. cbn [tipShown noteText weightValue totalValue].
    destruct (v1_active_cases st) as [(Hok & Hw & Ht)|(Hok & Hn)].
    + left. rewrite Hok, Hw, Ht. repeat split.
    + right. rewrite Hok, Hn. split; reflexivity.
  - unfold FormV2.card. cbv zeta. cbn [tipShown noteText weightValue totalValue].
    destruct (v2_active_cases st) as [(Hok & Hw & Ht)|(Hok & Hn)].
    + left. rewrite Hok, Hw, Ht. repeat split.
    + right. rewrite Hok, Hn. split; reflexivity.
Qed.

Lemma v3_invalid_is_NaN (st : FormV3.State) :
  PageV3.ok (FormV3.resultOf st) = false ->
  FormV3.resultOf st = PageV3.invalid.
Proof.
  unfold FormV3.resultOf. rewrite v3_result_cases. cbv zeta.
  destruct (Spec.valid _); [discriminate|reflexivity].
Qed.

(** X6: in [src/unnamed/part_000] the hint about valid dimensions is
    shown only together with the dash for both weights. *)
Theorem hint_comes_with_dashes (st : FormV3.State) :
  FormV3.hintShown (FormV3.box st) = true ->
  FormV3.weightPerMeter (FormV3.box st) = "— kg/m" /\
  FormV3.totalWeight (FormV3.box st) = "— kg".
Proof.
  unfold FormV3.box. cbv zeta.
  cbn [FormV3.hintShown FormV3.weightPerMeter FormV3.totalWeight].
  intros H. apply negb_true_iff in H.
  rewrite (v3_invalid_is_NaN st H). split; reflexivity.
Qed.

Lemma hint_comes_with_dashes_witness :
  FormV3.weightPerMeter
    (FormV3.box (FormV3.run [FormV3.EditOd "3"; FormV3.EditThickness "2"]))
  = "— kg/m" /\
  FormV3.totalWeight
    (FormV3.box (FormV3.run [FormV3.EditOd "3"; FormV3.EditThickness "2"]))
  = "— kg".
Proof.
  apply hint_comes_with_dashes. vm_compute. reflexivity.
Defined.

(** X7: in [src/unnamed/part_000], choosing a pipe type empties the six
    inputs, whatever they held, and keeps the unit; the page then shows
    the dash for both weights and the hint. *)
Theorem selecting_a_type_blanks_the_form (st : FormV3.State)
        (p : PageV3.PipeType) :
  let st' := FormV3.step st (FormV3.SelectPipeType p) in
  st' = {| FormV3.pipeType := p; FormV3.unit := FormV3.unit st;
           FormV3.od := ""; FormV3.side := ""; FormV3.width := "";
           FormV3.height := ""; FormV3.thickness := "";
           FormV3.length := "" |} /\
  FormV3.box st' = {| FormV3.weightPerMeter := "— kg/m";
                      FormV3.totalWeight := "— kg";
                      FormV3.hintShown := true |}.
Proof.
  destruct st as [p0 u ? ? ? ? ? ?]. cbv zeta. split; [reflexivity|].
  destruct p, u; vm_compute; reflexivity.
Qed.

End CardFacts.

(** * Entries *)

Section EntryFacts.
Context {number : Type} `{JsNumberLaws number}.
Import StringToNumber.

Lemma trimStart_blank (l : list ascii) :
  Forall (fun c => isWhiteSpace c = true) l -> trimStart l = [].
Proof.
  induction 1 as [|c l Hc _ IH]; [reflexivity|].
  cbn [trimStart]. rewrite Hc. exact IH.
Qed.

Lemma trimStart_blank_app (l1 l : list ascii) :
  Forall (fun c => isWhiteSpace c = true) l1 ->
  trimStart (l1 ++ l) = trimStart l.
Proof.
  induction 1 as [|c l1 Hc _ IH]; [reflexivity|].
  cbn [app trimStart]. rewrite Hc. exact IH.
Qed.

Lemma trimStart_app_blank (l l2 : list ascii) :
  Forall (fun c => isWhiteSpace c = true) l2 ->
  trimStart (rev (trimStart (l ++ l2))) = trimStart (rev (trimStart l)).
Proof.
  intros H2. induction l as [|c l IH].
  - cbn [app]. rewrite (trimStart_blank H2). reflexivity.
  - cbn [app trimStart]. destruct (isWhiteSpace c); [exact IH|].
    change (c :: l ++ l2) with ((c :: l) ++ l2).
    rewrite rev_app_distr. apply trimStart_blank_app.
    apply Forall_rev. exact H2.
Qed.

Lemma trim_padded (l1 l l2 : list ascii) :
  Forall (fun c => isWhiteSpace c = true) l1 ->
  Forall (fun c => isWhiteSpace c = true) l2 ->
  trim (l1 ++ l ++ l2) = trim l.
Proof.
  intros H1 H2. unfold trim.
  rewrite (trimStart_blank_app _ H1), (trimStart_app_blank _ H2).
  reflexivity.
Qed.

Lemma list_ascii_of_string_app (a b : string) :
  list_ascii_of_string (a ++ b)%string =
  list_ascii_of_string a ++ list_ascii_of_string b.
Proof.
  induction a as [|c a IH]; [reflexivity|].
  cbn. rewrite IH. reflexivity.
Qed.

Lemma Number_padded (w1 v w2 : string) :
  Forall (fun c => isWhiteSpace c = true) (list_ascii_of_string w1) ->
  Forall (fun c => isWhiteSpace c = true) (list_ascii_of_string w2) ->
  Number (w1 ++ v ++ w2)%string = Number v.
Proof.
  intros H1 H2. unfold Number, parse.
  rewrite !list_ascii_of_string_app, (trim_padded _ H1 H2). reflexivity.
Qed.

Lemma Number_blank (w : string) :
  Forall (fun c => isWhiteSpace c = true) (list_ascii_of_string w) ->
  Number w = lit 0 0.
Proof.
  intros Hw. unfold Number, parse, trim.
  rewrite (trimStart_blank Hw). reflexivity.
Qed.

(** X8: white space before and after an entry is ignored: the three
    readers of a text field give the same number for the padded text. *)
Theorem white_space_around_an_entry_is_ignored (w1 v w2 : string) :
  Forall (fun c => isWhiteSpace c = true) (list_ascii_of_string w1) ->
  Forall (fun c => isWhiteSpace c = true) (list_ascii_of_string w2) ->
  PageV1.num (w1 ++ v ++ w2)%string = PageV1.num v /\
  PageV2.num (w1 ++ v ++ w2)%string = PageV2.num v /\
  PageV3.n (w1 ++ v ++ w2)%string = PageV3.n v.
Proof.
  intros H1 H2. unfold PageV1.num, PageV2.num, PageV3.n.
  rewrite (Number_padded w1 v w2 H1 H2). repeat split.
Qed.

Lemma v1_field_of_valid (a b : string) :
  PageV1.validDims (PageV1.field a) (PageV1.field b) = true ->
  PageV1.field a = PageV1.num a /\ PageV1.field b = PageV1.num b.
Proof.
  unfold PageV1.validDims. intros Hv.
  apply andb_prop in Hv. destruct Hv as [Hv _].
  apply andb_prop in Hv. destruct Hv as [Hv _].
  apply andb_prop in Hv. destruct Hv as [Ha Hb].
  unfold PageV1.field, PageV1.clampNonNegative in *.
  split.
  - destruct (_ && _); [reflexivity|]. rewrite isFinite_NaN in Ha. discriminate.
  - destruct (isFinite (PageV1.num b) && _); [reflexivity|].
    rewrite isFinite_NaN in Hb. discriminate.
Qed.

End EntryFacts.

Section EntryFactsBinary64.
Local Existing Instance Float64.number.
Local Existing Instance Float64_laws.
Local Open Scope string_scope.
Local Open Scope js_scope.
Import StringToNumber.

(** X9: a thickness field that is empty or holds only white space reads
    as zero, and the result is invalid in every generation and for every
    shape, whatever the other fields hold. *)
Theorem blank_thickness_is_invalid (w : string) :
  Forall (fun c => isWhiteSpace c = true) (list_ascii_of_string w) ->
  (forall odIn roundLen u,
     PageV1.ok (PageV1.round odIn w roundLen u) = false) /\
  (forall sideMm sqLenM,
     PageV1.ok (PageV1.square sideMm w sqLenM) = false) /\
  (forall odIn roundLen u,
     PageV2.ok (PageV2.round odIn w roundLen u) = false) /\
  (forall sideIn sqLen u,
     PageV2.ok (PageV2.square sideIn w sqLen u) = false) /\
  (forall p u od side width height length,
     PageV3.ok (PageV3.result p u od side width height w length) = false).
Proof.
  intros Hw. pose proof (Number_blank (number := Float64.t) w Hw) as HN.
  assert (H1 : PageV1.field (number := Float64.t) w = S754_zero false).
  { unfold PageV1.field, PageV1.num. rewrite HN. reflexivity. }
  assert (H2 : PageV2.field (number := Float64.t) w = S754_zero false).
  { unfold PageV2.field, PageV2.num. rewrite HN. reflexivity. }
  assert (H3 : forall u, PageV3.mm (number := Float64.t) u (PageV3.n w)
                        = S754_zero false).
  { intros u. unfold PageV3.n. rewrite HN. destruct u; reflexivity. }
  repeat apply conj; intros.
  - rewrite v1_round_cases. cbv zeta. rewrite H1. unfold PageV1.validDims.
    destruct (isFinite (PageV1.field odIn)); reflexivity.
  - rewrite v1_square_cases. cbv zeta. rewrite H1. unfold PageV1.validDims.
    destruct (isFinite (PageV1.field sideMm)); reflexivity.
  - rewrite v2_round_cases. cbv zeta. rewrite H2.
    destruct (isFinite (PageV2.outerMm odIn)); reflexivity.
  - rewrite v2_square_cases. cbv zeta. rewrite H2.
    destruct (isFinite (PageV2.outerMm sideIn)); reflexivity.
  - rewrite v3_result_cases. cbv zeta. unfold PageV3.profile. cbv zeta.
    rewrite H3. destruct p; reflexivity.
Qed.

Lemma blank_thickness_is_invalid_witness :
  PageV3.ok (PageV3.result PageV3.round PageV3.mm_ "50" "" "" "" " " "6")
  = false.
Proof.
  apply (proj2 (proj2 (proj2 (proj2 (blank_thickness_is_invalid " "
    ltac:(repeat constructor)))))).
Defined.

(** X10: the weight of a square tube in [src/unnamed/part_000], with
    millimetres selected, is the weight generation 1 of
    [src/app/page.tsx] gives for the same entries, per metre and in
    total, whenever both accept them. *)
Theorem gen3_square_weight_is_gen1_square_weight
        (sideMm thMm sqLenM od width height : string) :
  let r1 := PageV1.square sideMm thMm sqLenM in
  let r3 := PageV3.result PageV3.square PageV3.mm_
                          od sideMm width height thMm sqLenM in
  PageV1.ok r1 = true -> PageV3.ok r3 = true ->
  PageV3.wPerM r3 = PageV1.wPerUnit r1 /\
  PageV3.total r3 = PageV1.total r1.
Proof.
  cbv zeta. rewrite v1_square_cases, v3_result_cases. cbv zeta.
  destruct (PageV1.validDims _ _) eqn:Hv1; [|discriminate].
  destruct (Spec.valid _); [|discriminate]. intros _ _.
  destruct (v1_field_of_valid _ _ Hv1) as [Hs Ht].
  cbn [PageV3.wPerM PageV3.total PageV1.wPerUnit PageV1.total].
  unfold PageV3.profile, PageV3.shortcut. cbv zeta. cbn [PageV3.mm].
  rewrite Hs, Ht. split; reflexivity.
Qed.

Lemma gen3_square_weight_is_gen1_square_weight_witness :
  PageV3.wPerM (PageV3.result PageV3.square PageV3.mm_ "" "50" "" "" "2" "6")
  = PageV1.wPerUnit (PageV1.square "50" "2" "6") /\
  PageV3.total (PageV3.result PageV3.square PageV3.mm_ "" "50" "" "" "2" "6")
  = PageV1.total (PageV1.square "50" "2" "6").
Proof.
  apply gen3_square_weight_is_gen1_square_weight; vm_compute; reflexivity.
Defined.

End EntryFactsBinary64.

Section FormWitnesses.
Local Existing Instance Float64.number.
Local Existing Instance Float64_laws.
Local Open Scope string_scope.

Lemma reset_and_switch_blank_the_form_witness :
  FormV1.step (FormV1.run [FormV1.EditOdIn "2"; FormV1.EditThIn "0.1"])
              (FormV1.ClickType PageV1.Square)
  = FormV1.blank PageV1.Square /\
  FormV2.step (FormV2.run [FormV2.ClickType PageV2.Square;
                           FormV2.EditSideIn "2";
                           FormV2.SelectSqLenUnit PageV2.ft])
              (FormV2.ClickType PageV2.Round)
  = FormV2.blank PageV2.Round.
Proof.
  destruct reset_and_switch_blank_the_form as (_ & H1 & _ & H2).
  split; [apply H1|apply H2]; discriminate.
Defined.

Lemma white_space_around_an_entry_is_ignored_witness :
  PageV1.num (number := Float64.t) (" " ++ "2.5" ++ "  ") = PageV1.num "2.5" /\
  PageV2.num (number := Float64.t) (" " ++ "2.5" ++ "  ") = PageV2.num "2.5" /\
  PageV3.n (number := Float64.t) (" " ++ "2.5" ++ "  ") = PageV3.n "2.5".
Proof.
  apply white_space_around_an_entry_is_ignored; repeat constructor.
Defined.

End FormWitnesses.

(** * The unit selector, without rounding *)

Section UnitSelector.
Local Existing Instance Exact.number.
Local Existing Instance Exact_laws.
Local Open Scope string_scope.
Local Open Scope R_scope.
Import Exact.





End UnitSelector.
